(** * epam-forms: the blog/user resource controller and its data-access layer

    A shallow embedding of [UserController] (request handling) and
    [UserModel] (SQL pass-through), with the storage driver, the
    authentication model and the constants module taken as collaborators.

    JavaScript values are modelled by [value]; numbers are the safe
    integers (of magnitude at most 2^53 - 1: no NaN, no fractions, no
    exponent notation), which is what identifiers and affected-row counts
    are.  An object is the list of its own enumerable properties in
    enumeration order, as [Object.entries] yields them; property values are
    data, never functions. *)

From Stdlib Require Import String Ascii List ZArith Lia Bool DecimalString.
Import ListNotations.
Local Open Scope string_scope.
Local Open Scope list_scope.

(** ** JavaScript values *)

Set Warnings "-register-all".

(** [Number.MAX_SAFE_INTEGER] *)
Definition MAX_SAFE_INTEGER : Z := 9007199254740991.

(** An integer that a JavaScript number holds exactly. *)
Record safe_integer : Type := {
  number : Z;
  number_is_safe : (Z.abs number <=? MAX_SAFE_INTEGER)%Z = true
}.

Notation "'num' z" := {| number := z; number_is_safe := eq_refl |}
  (at level 10, z at level 9).

Inductive value : Type :=
| VUndefined
| VNull
| VBool (b : bool)
| VNum (n : safe_integer)
| VStr (s : string)
| VObj (props : list (string * value))
| VArr (items : list value).

Definition obj : Type := list (string * value).

(** [ToBoolean]: what [if (x)], [!x] and [x || y] test. *)
Definition truthy (v : value) : bool :=
  match v with
  | VUndefined | VNull => false
  | VBool b => b
  | VNum n => negb (number n =? 0)%Z
  | VStr s => negb (s =? "")
  | VObj _ | VArr _ => true
  end.

(** [a || b] *)
Definition js_or (a b : value) : value := if truthy a then a else b.

(** [a === b].  Two objects are equal only when they are the same reference;
    the operands compared by the controller come from two different places
    (a freshly fetched row and the request context), so object operands are
    never identical. *)
Definition strict_equal (a b : value) : bool :=
  match a, b with
  | VUndefined, VUndefined => true
  | VNull, VNull => true
  | VBool x, VBool y => Bool.eqb x y
  | VNum x, VNum y => (number x =? number y)%Z
  | VStr x, VStr y => (x =? y)
  | _, _ => false
  end.

(** ** Objects *)

(** [o[key]] on a plain object: the value of the property, or [undefined]. *)
Fixpoint get (o : obj) (key : string) : value :=
  match o with
  | [] => VUndefined
  | (k, v) :: rest => if k =? key then v else get rest key
  end.

(** [Object.keys(o).includes(key)] *)
Fixpoint has_key (o : obj) (key : string) : bool :=
  match o with
  | [] => false
  | (k, _) :: rest => (k =? key) || has_key rest key
  end.

(** [o[key] = v]: an existing property keeps its place, a new one is added
    at the end of the enumeration order. *)
Fixpoint set_prop (o : obj) (key : string) (v : value) : obj :=
  match o with
  | [] => [(key, v)]
  | (k, old) :: rest =>
      if k =? key then (k, v) :: rest else (k, old) :: set_prop rest key v
  end.

(** ** Completions: a call returns a value or throws an error object *)

Inductive completion (A : Type) : Type :=
| Returned (a : A)
| Thrown (error : obj).
Arguments Returned {A} a.
Arguments Thrown {A} error.

(** The [TypeError] the engine raises; only [message] is an own property the
    controller reads ([status] and [response] are absent). *)
Definition TypeError (message : string) : obj := [("message", VStr message)].

(** [`${v}`]: the string a template literal interpolates, [ToString(v)].
    A plain object renders through [Object.prototype.toString] unless it has
    an own [toString] property: that one is data, not callable, the inherited
    [valueOf] returns the object itself, and the conversion throws.  An array
    renders as [join(",")] does: [undefined] and [null] elements as the empty
    string, every other element by its own rendering, the first failure
    aborting the whole. *)
Fixpoint toString (v : value) : completion string :=
  match v with
  | VUndefined => Returned "undefined"
  | VNull => Returned "null"
  | VBool true => Returned "true"
  | VBool false => Returned "false"
  | VNum n => Returned (NilZero.string_of_int (Z.to_int (number n)))
  | VStr s => Returned s
  | VObj props =>
      if has_key props "toString"
      then Thrown (TypeError "Cannot convert object to primitive value")
      else Returned "[object Object]"
  | VArr items =>
      match
        (fix join (elements : list value) : completion (list string) :=
           match elements with
           | [] => Returned []
           | element :: rest =>
               match
                 match element with
                 | VUndefined | VNull => Returned ""
                 | _ => toString element
                 end
               with
               | Thrown error => Thrown error
               | Returned text =>
                   match join rest with
                   | Thrown error => Thrown error
                   | Returned texts => Returned (text :: texts)
                   end
               end
           end) items
      with
      | Thrown error => Thrown error
      | Returned texts => Returned (String.concat "," texts)
      end
  end.

(** [v.name] for the property names the source reads ([insertId],
    [affectedRows], [userId], [id], [username]): none of them is inherited
    from a prototype, so only a plain object can carry one. *)
Definition member (v : value) (name : string) : completion value :=
  match v with
  | VUndefined =>
      Thrown (TypeError ("Cannot read properties of undefined (reading '" ++ name ++ "')"))
  | VNull =>
      Thrown (TypeError ("Cannot read properties of null (reading '" ++ name ++ "')"))
  | VObj props => Returned (get props name)
  | VBool _ | VNum _ | VStr _ | VArr _ => Returned VUndefined
  end.

(** [v[0]] *)
Definition element0 (v : value) : completion value :=
  match v with
  | VUndefined => Thrown (TypeError "Cannot read properties of undefined (reading '0')")
  | VNull => Thrown (TypeError "Cannot read properties of null (reading '0')")
  | VArr items => Returned (nth 0 items VUndefined)
  | VObj props => Returned (get props "0")
  | VStr (String c _) => Returned (VStr (String c EmptyString))
  | VStr EmptyString | VBool _ | VNum _ => Returned VUndefined
  end.

(** ** Collaborators *)

(** The exports of [helpers/constants.js], taken as parameters.  The three
    field tables stand for [Object.values] of the exported objects. *)
Record Constants : Type := {
  OK : value;
  SUCCESSFULLY_CREATED : value;
  BAD_REQUEST : value;
  UNAUTHORIZED : value;
  INTERNAL_SERVER_ERROR : value;
  blogCreationRequiredFields : list string;
  possibleBlogUpdateFields : list string;
  userUpdateFields : list string
}.

(** The storage driver ([Database.executeQuery(sqlText, boundParams?)]) and
    the authentication model ([AuthModel.findUserByAttribute(name, value)])
    over one store: each call returns or throws, and leaves a new store. *)
Record Backend : Type := {
  db_state : Type;
  executeQuery : string -> value -> db_state -> completion value * db_state;
  findUserByAttribute : string -> value -> db_state -> completion value * db_state
}.

(** What an operation does to the outside, in order. *)
Inductive event : Type :=
| ExecuteQuery (sqlText : string) (boundParams : value)
| FindUserByAttribute (attributeName : string) (attributeValue : value)
| SendResponse (statusCode message payload errorDetail : value).

Record world (B : Backend) : Type := {
  store : db_state B;
  trace : list event
}.
Arguments store {B} w.
Arguments trace {B} w.

(** An [async] function body: from a world to a completion and a world. *)
Definition M (B : Backend) (A : Type) : Type := world B -> completion A * world B.

Definition ret {B A} (a : A) : M B A := fun w => (Returned a, w).

Definition throw {B A} (error : obj) : M B A := fun w => (Thrown error, w).

Definition bind {B A C} (m : M B A) (k : A -> M B C) : M B C :=
  fun w =>
    match m w with
    | (Returned a, w') => k a w'
    | (Thrown error, w') => (Thrown error, w')
    end.

(** [try { body } catch (error) { handler }] *)
Definition try_catch {B A} (body : M B A) (handler : obj -> M B A) : M B A :=
  fun w =>
    match body w with
    | (Returned a, w') => (Returned a, w')
    | (Thrown error, w') => handler error w'
    end.

Definition lift {B A} (c : completion A) : M B A := fun w => (c, w).

Declare Scope js_scope.
Delimit Scope js_scope with js.
Notation "x <- m ;; k" := (bind m (fun x => k))
  (at level 100, m at next level, right associativity) : js_scope.
Local Open Scope js_scope.

Definition emit {B} (e : event) (w : world B) : world B :=
  {| store := store w; trace := trace w ++ [e] |}.

(** [await Database.executeQuery(query, params)] *)
Definition Database_executeQuery (B : Backend) (query : string) (params : value)
  : M B value :=
  fun w =>
    let (result, s) := executeQuery B query params (store w) in
    (result, {| store := s; trace := trace w ++ [ExecuteQuery query params] |}).

(** [await AuthModel.findUserByAttribute(name, v)] *)
Definition AuthModel_findUserByAttribute (B : Backend) (name : string) (v : value)
  : M B value :=
  fun w =>
    let (result, s) := findUserByAttribute B name v (store w) in
    (result, {| store := s; trace := trace w ++ [FindUserByAttribute name v] |}).

(** The request as the routing layer hands it over: [req.params.id] and
    [req.body], a parsed object. *)
Record request : Type := {
  params_id : value;
  body : obj
}.

(** The response target; upstream middleware has put the caller's identity
    in [res.locals.user.id]. *)
Record response : Type := {
  locals_user_id : value
}.

(** Modelled from the spec: [sendResponse] of [helpers/utils.js], the
    response-emission collaborator
    [sendResponse(responseTarget, statusCode, message, payload?, errorDetail?)].
    It emits one response with the arguments given; an omitted argument is
    [undefined]. *)
Definition sendResponse {B} (res : response)
    (statusCode message payload errorDetail : value) : M B value :=
  fun w => (Returned VUndefined, emit (SendResponse statusCode message payload errorDetail) w).

(** Modelled from the spec: [isAvailable] of [helpers/utils.js], the
    field-presence validator
    [isAvailable(body, requiredFieldNames, allRequired: boolean)]: every
    listed key is present, or with [allRequired] false at least one is.
    Creation passes no third argument and requires all of them. *)
Definition isAvailable (targetObj : obj) (requiredFieldNames : list string)
    (allRequired : option bool) : bool :=
  match allRequired with
  | Some false => existsb (has_key targetObj) requiredFieldNames
  | Some true | None => forallb (has_key targetObj) requiredFieldNames
  end.

(** ** The data-access layer: [models/user.model.js] *)

Module UserModel.
Section WithBackend.
Variable B : Backend.

Definition getAllBlogs : M B value :=
  let query := "SELECT * FROM blogs" in
  blogs <- Database_executeQuery B query VUndefined ;;
  ret blogs.

Definition getBlogById (blogId : value) : M B value :=
  let query := "SELECT * FROM blogs WHERE id = ?" in
  let params := VArr [blogId] in
  result <- Database_executeQuery B query params ;;
  lift (element0 result).

Definition createBlog (title description userId : value) : M B value :=
  let query := "INSERT INTO blogs SET ?" in
  let params := VObj [("userId", userId); ("title", title); ("description", description)] in
  result <- Database_executeQuery B query params ;;
  ret result.

(** The [forEach] callback of [updateBlog], applied to the entries from
    position [index] on; [keysLength] is [Object.keys(targetObj).length].
    Interpolating a value that has no string rendering throws, which ends
    the loop. *)
Fixpoint forEach_entry (entries : obj) (index : nat) (keysLength : nat)
    (query : string) : completion string :=
  match entries with
  | [] => Returned query
  | (key, v) :: rest =>
      match toString v with
      | Thrown error => Thrown error
      | Returned text =>
          forEach_entry rest (S index) keysLength
            (if (Z.of_nat index =? Z.of_nat keysLength - 1)%Z
             then query ++ key ++ " = '" ++ text ++ "' WHERE id = ?"
             else query ++ key ++ " = '" ++ text ++ "', ")
      end
  end.

Definition updateBlog_query (targetObj : obj) : completion string :=
  forEach_entry targetObj 0 (List.length targetObj) "UPDATE blogs SET ".

Definition updateBlog (targetObj : obj) (blogId : value) : M B value :=
  query <- lift (updateBlog_query targetObj) ;;
  let params := VArr [blogId] in
  result <- Database_executeQuery B query params ;;
  ret result.

Definition deleteBlog (blogId : value) : M B value :=
  let query := "DELETE FROM blogs WHERE id = ?" in
  let params := VArr [blogId] in
  result <- Database_executeQuery B query params ;;
  ret result.

End WithBackend.
End UserModel.

(** ** The request-handling layer: the controller *)

Module UserController.
Section WithCollaborators.
Variable K : Constants.
Variable B : Backend.

(** A message [`prefix${v}suffix`]. *)
Definition template (prefix : string) (v : value) (suffix : string) : M B value :=
  text <- lift (toString v) ;;
  ret (VStr (prefix ++ text ++ suffix)).

(** The [catch (error)] block, the same in every operation. *)
Definition catch_block (res : response) (error : obj) : M B value :=
  sendResponse res
    (js_or (get error "status") (INTERNAL_SERVER_ERROR K))
    (js_or (get error "message") (VStr "Internal Server Error"))
    (VArr [])
    (js_or (get error "response") (VObj error)).

Definition getAllBlogs (req : request) (res : response) : M B value :=
  try_catch
    (blogs <- UserModel.getAllBlogs B ;;
     sendResponse res (OK K) (VStr "All blogs fetched successfully") blogs VUndefined)
    (catch_block res).

Definition createBlog (req : request) (res : response) : M B value :=
  let requestBody := set_prop (body req) "userId" (locals_user_id res) in
  let allFieldsArePresent :=
    isAvailable requestBody (blogCreationRequiredFields K) None in
  if negb allFieldsArePresent
  then sendResponse res (BAD_REQUEST K) (VStr "Some fields are missing")
         VUndefined VUndefined
  else
    let title := get requestBody "title" in
    let description := get requestBody "description" in
    let userId := get requestBody "userId" in
    try_catch
      (blogCreateResult <- UserModel.createBlog B title description userId ;;
       insertId <- lift (member blogCreateResult "insertId") ;;
       sendResponse res (SUCCESSFULLY_CREATED K) (VStr "Blog created successfully")
         (VObj [("id", insertId); ("title", title);
                ("description", description); ("userId", userId)])
         VUndefined)
      (catch_block res).

Definition getBlogById (req : request) (res : response) : M B value :=
  let blogId := params_id req in
  try_catch
    (blog <- UserModel.getBlogById B blogId ;;
     if negb (truthy blog)
     then (message <- template "Blog with id " blogId " not found" ;;
           sendResponse res (OK K) message VUndefined VUndefined)
     else (message <- template "Blog with id " blogId " fetched successfully" ;;
           sendResponse res (OK K) message blog VUndefined))
    (catch_block res).

Definition updateBlog (req : request) (res : response) : M B value :=
  let requestBody := body req in
  let fieldsToBeUpdatedExist :=
    isAvailable requestBody (possibleBlogUpdateFields K) (Some false) in
  if negb fieldsToBeUpdatedExist
  then sendResponse res (BAD_REQUEST K) (VStr "Fields to be updated does not exist")
         VUndefined VUndefined
  else
    let blogId := params_id req in
    try_catch
      (blogToBeUpdated <- UserModel.getBlogById B blogId ;;
       if negb (truthy blogToBeUpdated)
       then (message <- template "Blog with id " blogId " not found" ;;
             sendResponse res (OK K) message VUndefined VUndefined)
       else
         owner <- lift (member blogToBeUpdated "userId") ;;
         if negb (strict_equal owner (locals_user_id res))
         then sendResponse res (UNAUTHORIZED K) (VStr "You are not authorized")
                VUndefined VUndefined
         else
           updateBlogResult <- UserModel.updateBlog B requestBody blogId ;;
           affectedRows <- lift (member updateBlogResult "affectedRows") ;;
           if truthy affectedRows
           then (message <- template "Blog with id " blogId " updated successfully" ;;
                 sendResponse res (OK K) message VUndefined VUndefined)
           else (message <- template "Blog with id " blogId " could not be updated" ;;
                 sendResponse res (BAD_REQUEST K) message VUndefined VUndefined))
      (catch_block res).

Definition deleteBlog (req : request) (res : response) : M B value :=
  let blogId := params_id req in
  try_catch
    (blogToBeDeleted <- UserModel.getBlogById B blogId ;;
     if negb (truthy blogToBeDeleted)
     then (message <- template "Blog with id " blogId " not found" ;;
           sendResponse res (OK K) message VUndefined VUndefined)
     else
       owner <- lift (member blogToBeDeleted "userId") ;;
       if negb (strict_equal owner (locals_user_id res))
       then sendResponse res (UNAUTHORIZED K) (VStr "You are not authorized")
              VUndefined VUndefined
       else
         deleteBlogResult <- UserModel.deleteBlog B blogId ;;
         affectedRows <- lift (member deleteBlogResult "affectedRows") ;;
         if truthy affectedRows
         then (message <- template "Blog with id " blogId " deleted successfully" ;;
               sendResponse res (OK K) message VUndefined VUndefined)
         else (message <- template "Blog with id " blogId " could not be deleted" ;;
               sendResponse res (BAD_REQUEST K) message VUndefined VUndefined))
    (catch_block res).

Definition getUserById (req : request) (res : response) : M B value :=
  let userId := params_id req in
  try_catch
    (user <- AuthModel_findUserByAttribute B "id" userId ;;
     if negb (truthy user)
     then (message <- template "User with id " userId " does not exist" ;;
           sendResponse res (OK K) message VUndefined VUndefined)
     else
       id <- lift (member user "id") ;;
       if negb (strict_equal id (locals_user_id res))
       then sendResponse res (UNAUTHORIZED K) (VStr "You are not authorized")
              VUndefined VUndefined
       else
         message <- template "User with id " userId " fetched successfully" ;;
         username <- lift (member user "username") ;;
         sendResponse res (OK K) message
           (VObj [("id", id); ("username", username)])
           VUndefined)
    (catch_block res).

(** [UserModel.updateUser(requestBody, userId)]: the class [UserModel]
    declares [getAllBlogs], [getBlogById], [createBlog], [updateBlog] and
    [deleteBlog] and nothing else, so [UserModel.updateUser] evaluates to
    [undefined] and calling it raises a [TypeError]. *)
Definition UserModel_updateUser (requestBody : obj) (userId : value) : M B value :=
  throw (TypeError "UserModel.updateUser is not a function").

Definition updateUser (req : request) (res : response) : M B value :=
  let requestBody := body req in
  let fieldsToBeUpdatedExist :=
    isAvailable requestBody (userUpdateFields K) (Some false) in
  if negb fieldsToBeUpdatedExist
  then sendResponse res (BAD_REQUEST K) (VStr "Fields to be updated does not exist")
         VUndefined VUndefined
  else
    let userId := params_id req in
    try_catch
      (user <- AuthModel_findUserByAttribute B "id" userId ;;
       if negb (truthy user)
       then (message <- template "User with id " userId " does not exist" ;;
             sendResponse res (OK K) message VUndefined VUndefined)
       else
         id <- lift (member user "id") ;;
         if negb (strict_equal id (locals_user_id res))
         then sendResponse res (UNAUTHORIZED K) (VStr "You are not authorized")
                VUndefined VUndefined
         else
           updateUserResult <- UserModel_updateUser requestBody userId ;;
           affectedRows <- lift (member updateUserResult "affectedRows") ;;
           if truthy affectedRows
           then (message <- template "User with id " userId " updated successfully" ;;
                 sendResponse res (OK K) message VUndefined VUndefined)
           else (message <- template "User with id " userId " could not be updated" ;;
                 sendResponse res (BAD_REQUEST K) message VUndefined VUndefined))
      (catch_block res).

End WithCollaborators.
End UserController.

(** ** Test doubles *)

(** A storage driver and an authentication model that answer from scripts:
    every query takes the next prepared query reply, every user lookup the
    next prepared lookup reply. *)
Module Scripted.

Definition script : Type := list (completion value).

Definition next (replies : script) : completion value * script :=
  match replies with
  | [] => (Returned VUndefined, [])
  | reply :: rest => (reply, rest)
  end.

Definition backend : Backend := {|
  db_state := script * script;
  executeQuery := fun _ _ st =>
    let (reply, rest) := next (fst st) in (reply, (rest, snd st));
  findUserByAttribute := fun _ _ st =>
    let (reply, rest) := next (snd st) in (reply, (fst st, rest))
|}.

(** The world with the given replies left and [events] done. *)
Definition world_of (queries lookups : script) (events : list event)
  : world backend :=
  Build_world backend (queries, lookups) events.

Definition start (queries : script) : world backend := world_of queries [] [].

Definition after (remaining : script) (events : list event) : world backend :=
  world_of remaining [] events.

End Scripted.

(** A constants module to run the operations with: the status codes of the
    response envelope and the fields of the data model. *)
Definition sample_constants : Constants := {|
  OK := VNum (num 200);
  SUCCESSFULLY_CREATED := VNum (num 201);
  BAD_REQUEST := VNum (num 400);
  UNAUTHORIZED := VNum (num 401);
  INTERNAL_SERVER_ERROR := VNum (num 500);
  blogCreationRequiredFields := ["title"; "description"; "userId"];
  possibleBlogUpdateFields := ["title"; "description"];
  userUpdateFields := ["username"]
|}.

(** ** Vocabulary of the statements *)

(** The fields of an object as the statement text carries them: every key
    with the string rendering of its value, in enumeration order; the first
    value without a rendering makes the whole fail. *)
Fixpoint render (targetObj : obj) : completion (list (string * string)) :=
  match targetObj with
  | [] => Returned []
  | (key, v) :: rest =>
      match toString v with
      | Thrown error => Thrown error
      | Returned text =>
          match render rest with
          | Thrown error => Thrown error
          | Returned fields => Returned ((key, text) :: fields)
          end
      end
  end.

(** One column assignment of a SET clause: the field name and the text of
    its value put into the statement as they are. *)
Definition set_assignment (field : string * string) : string :=
  fst field ++ " = '" ++ snd field ++ "'".

(** The response the [catch] block of every operation sends for [error]. *)
Definition error_response (K : Constants) (error : obj) : event :=
  SendResponse
    (js_or (get error "status") (INTERNAL_SERVER_ERROR K))
    (js_or (get error "message") (VStr "Internal Server Error"))
    (VArr [])
    (js_or (get error "response") (VObj error)).

(** The fetch of the blog a request names, made in world [w], returns a
    blog whose [userId] is strictly equal to the caller's identity, and
    leaves the store [s]. *)
Definition caller_owns_fetched_blog (B : Backend) (req : request) (res : response)
    (w : world B) (s : db_state B) : Prop :=
  exists fetched blog owner : value,
    executeQuery B "SELECT * FROM blogs WHERE id = ?" (VArr [params_id req]) (store w)
    = (Returned fetched, s)
    /\ element0 fetched = Returned blog
    /\ truthy blog = true
    /\ member blog "userId" = Returned owner
    /\ strict_equal owner (locals_user_id res) = true.

(** The events of a trace that are storage or lookup calls, not responses. *)
Definition is_call (e : event) : Prop :=
  match e with
  | SendResponse _ _ _ _ => False
  | ExecuteQuery _ _ | FindUserByAttribute _ _ => True
  end.

(** An operation that, whatever it is given, returns normally after some
    collaborator calls followed by one response, the last thing it does. *)
Definition responds_exactly_once {B : Backend}
    (operation : request -> response -> M B value) : Prop :=
  forall (req : request) (res : response) (w : world B),
  exists (calls : list event) (statusCode message payload errorDetail : value)
         (s : db_state B),
    operation req res w =
      (Returned VUndefined,
       {| store := s;
          trace := trace w ++ calls
                     ++ [SendResponse statusCode message payload errorDetail] |})
    /\ Forall is_call calls.

(** ** Proof steps shared by the statements below *)

Ltac run_controller :=
  unfold UserController.catch_block, UserController.template,
    UserModel.updateBlog, UserModel.deleteBlog,
    UserController.UserModel_updateUser,
    try_catch, bind, ret, lift, throw, sendResponse, emit;
  cbn [store trace negb].

Ltac flatten_trace := rewrite <- ?app_assoc; cbn [app].

Ltac split_completion :=
  match goal with
  | |- context [executeQuery ?B ?q ?p ?s] =>
      let result := fresh "result" in
      let error := fresh "error" in
      let s' := fresh "s" in
      destruct (executeQuery B q p s) as [[result | error] s']
  | |- context [findUserByAttribute ?B ?n ?v ?s] =>
      let result := fresh "result" in
      let error := fresh "error" in
      let s' := fresh "s" in
      destruct (findUserByAttribute B n v s) as [[result | error] s']
  | |- context [UserModel.updateBlog_query ?o] =>
      destruct (UserModel.updateBlog_query o)
  | |- context [toString ?v] => destruct (toString v)
  | |- context [element0 ?v] => destruct (element0 v)
  | |- context [member ?v ?n] => destruct (member v n)
  | |- context [truthy ?v] =>
      lazymatch v with
      | context [js_or] => fail
      | _ => destruct (truthy v)
      end
  | |- context [strict_equal ?a ?b] => destruct (strict_equal a b)
  | |- context [isAvailable ?o ?f ?m] => destruct (isAvailable o f m)
  end; cbn [store trace negb fst snd]; cbv beta iota.

Ltac close_answer :=
  do 5 eexists;
  split;
  [ reflexivity
  | repeat first [ apply Forall_nil | apply Forall_cons; [exact I | ] ] ].

Ltac answered_once :=
  flatten_trace;
  first [ exists (@nil event); close_answer
        | eexists (_ :: nil); close_answer
        | eexists (_ :: _ :: nil); close_answer ].

Ltac responds :=
  intros req res w; run_controller;
  unfold UserModel.getAllBlogs, UserModel.getBlogById, UserModel.createBlog,
    Database_executeQuery, AuthModel_findUserByAttribute, bind, ret, lift;
  cbn [store trace negb fst snd]; cbv beta iota;
  repeat split_completion;
  answered_once.

(** Case analysis on the next collaborator result or test, keeping what was
    learnt as a hypothesis. *)
Ltac split_completion_eq :=
  match goal with
  | |- context [executeQuery ?B ?q ?p ?s] =>
      destruct (executeQuery B q p s) as [[? | ?] ?] eqn:?
  | |- context [findUserByAttribute ?B ?n ?v ?s] =>
      destruct (findUserByAttribute B n v s) as [[? | ?] ?] eqn:?
  | |- context [UserModel.updateBlog_query ?o] =>
      destruct (UserModel.updateBlog_query o) eqn:?
  | |- context [toString ?v] => destruct (toString v) eqn:?
  | |- context [element0 ?v] => destruct (element0 v) eqn:?
  | |- context [member ?v ?n] => destruct (member v n) eqn:?
  | |- context [truthy ?v] =>
      lazymatch v with
      | context [js_or] => fail
      | _ => destruct (truthy v) eqn:?
      end
  | |- context [strict_equal ?a ?b] => destruct (strict_equal a b) eqn:?
  | |- context [isAvailable ?o ?f ?m] => destruct (isAvailable o f m) eqn:?
  end; cbn [store trace negb fst snd]; cbv beta iota.

Ltac every_path :=
  run_controller;
  unfold UserModel.getAllBlogs, UserModel.getBlogById, UserModel.createBlog,
    Database_executeQuery, AuthModel_findUserByAttribute, bind, ret, lift;
  cbn [store trace negb fst snd]; cbv beta iota;
  repeat split_completion_eq;
  flatten_trace.

(** ** Strings and objects *)

Lemma append_assoc (a b c : string) : ((a ++ b) ++ c)%string = (a ++ (b ++ c))%string.
Proof.
  induction a as [|ch a IH]; simpl; [reflexivity | now rewrite IH].
Qed.

Lemma append_inv_head (p a b : string) : (p ++ a)%string = (p ++ b)%string -> a = b.
Proof.
  induction p as [|ch p IH]; simpl; intros H; [exact H | ].
  injection H as H. now apply IH.
Qed.

Lemma get_set_same (o : obj) (key : string) (v : value) :
  get (set_prop o key v) key = v.
Proof.
  induction o as [|[k old] rest IH]; simpl.
  - now rewrite String.eqb_refl.
  - destruct (k =? key) eqn:E; simpl; rewrite E; [reflexivity | exact IH].
Qed.

Lemma get_set_other (o : obj) (key other : string) (v : value) :
  key <> other -> get (set_prop o key v) other = get o other.
Proof.
  intros Hne. induction o as [|[k old] rest IH]; simpl.
  - apply String.eqb_neq in Hne. now rewrite Hne.
  - destruct (k =? key) eqn:E; simpl.
    + apply String.eqb_eq in E. subst k.
      apply String.eqb_neq in Hne. now rewrite Hne.
    + now rewrite IH.
Qed.

Lemma has_key_set_same (o : obj) (key : string) (v : value) :
  has_key (set_prop o key v) key = true.
Proof.
  induction o as [|[k old] rest IH]; simpl.
  - now rewrite String.eqb_refl.
  - destruct (k =? key) eqn:E; simpl; rewrite E; [reflexivity | exact IH].
Qed.

Lemma has_key_set_other (o : obj) (key other : string) (v : value) :
  key <> other -> has_key (set_prop o key v) other = has_key o other.
Proof.
  intros Hne. induction o as [|[k old] rest IH]; simpl.
  - apply String.eqb_neq in Hne. now rewrite Hne.
  - destruct (k =? key) eqn:E; simpl.
    + apply String.eqb_eq in E. subst k. reflexivity.
    + now rewrite IH.
Qed.

(** ** String renderings *)

Example toString_of_primitives :
  toString VUndefined = Returned "undefined"
  /\ toString VNull = Returned "null"
  /\ toString (VBool true) = Returned "true"
  /\ toString (VBool false) = Returned "false"
  /\ toString (VNum (num 0)) = Returned "0"
  /\ toString (VNum (num (-12))) = Returned "-12"
  /\ toString (VNum (num 9007199254740991)) = Returned "9007199254740991"
  /\ toString (VStr "it's") = Returned "it's".
Proof. repeat split. Qed.

Example toString_of_objects_and_arrays :
  toString (VObj [("title", VStr "T")]) = Returned "[object Object]"
  /\ toString (VObj [("toString", VStr "x")])
     = Thrown (TypeError "Cannot convert object to primitive value")
  /\ toString (VArr []) = Returned ""
  /\ toString (VArr [VNum (num 1); VNull; VStr "a"; VUndefined; VArr [VBool true; VNum (num 2)]])
     = Returned "1,,a,,true,2"
  /\ toString (VArr [VStr "a"; VObj [("toString", VNull)]])
     = Thrown (TypeError "Cannot convert object to primitive value").
Proof. repeat split. Qed.

Lemma render_keys (targetObj : obj) :
  forall fields, render targetObj = Returned fields ->
                 map fst fields = map fst targetObj.
Proof.
  induction targetObj as [|[key v] rest IH]; intros fields H; cbn [render] in H.
  - now injection H as <-.
  - destruct (toString v); [ | discriminate].
    destruct (render rest) as [others | ]; [ | discriminate].
    injection H as <-. cbn [map fst]. now rewrite (IH others eq_refl).
Qed.

Lemma render_nonempty (entry : string * value) (rest : obj) :
  render (entry :: rest) <> Returned [].
Proof.
  destruct entry as [key v]. cbn [render].
  destruct (toString v); [ | discriminate].
  destruct (render rest); discriminate.
Qed.

(** ** The text [updateBlog] builds *)

Lemma concat_cons_cons (sep first second : string) (rest : list string) :
  String.concat sep (first :: second :: rest)
  = (first ++ sep ++ String.concat sep (second :: rest))%string.
Proof. reflexivity. Qed.

Lemma forEach_entry_cons (key : string) (v : value) (rest : obj)
    (index keysLength : nat) (query : string) :
  UserModel.forEach_entry ((key, v) :: rest) index keysLength query
  = match toString v with
    | Thrown error => Thrown error
    | Returned text =>
        UserModel.forEach_entry rest (S index) keysLength
          (if (Z.of_nat index =? Z.of_nat keysLength - 1)%Z
           then query ++ key ++ " = '" ++ text ++ "' WHERE id = ?"
           else query ++ key ++ " = '" ++ text ++ "', ")%string
    end.
Proof. reflexivity. Qed.

Lemma forEach_entry_closed_form (entries : obj) :
  entries <> [] ->
  forall (index : nat) (query : string),
    UserModel.forEach_entry entries index (index + List.length entries) query
    = match render entries with
      | Thrown error => Thrown error
      | Returned fields =>
          Returned (query ++ String.concat ", " (map set_assignment fields)
                      ++ " WHERE id = ?")%string
      end.
Proof.
  induction entries as [|[key v] rest IH]; intros Hne index query.
  - contradiction.
  - rewrite forEach_entry_cons. cbn [render].
    destruct (toString v) as [text | error]; [ | reflexivity].
    destruct rest as [|next rest'].
    + replace (Z.of_nat index =? Z.of_nat (index + List.length [(key, v)]) - 1)%Z
        with true
        by (symmetry; apply Z.eqb_eq; cbn [List.length]; lia).
      cbn [UserModel.forEach_entry render map String.concat].
      unfold set_assignment; cbn [fst snd].
      now rewrite !append_assoc.
    + replace (Z.of_nat index =? Z.of_nat (index + List.length ((key, v) :: next :: rest')) - 1)%Z
        with false
        by (symmetry; apply Z.eqb_neq; cbn [List.length]; lia).
      replace (index + List.length ((key, v) :: next :: rest'))
        with (S index + List.length (next :: rest'))
        by (cbn [List.length]; lia).
      rewrite IH by discriminate.
      destruct (render (next :: rest')) as [fields | error] eqn:Hrest;
        [ | reflexivity].
      destruct fields as [|field fields].
      * now apply render_nonempty in Hrest.
      * cbn [map]. rewrite concat_cons_cons.
        change (set_assignment (key, text))
          with (key ++ " = '" ++ text ++ "'")%string.
        now rewrite !append_assoc.
Qed.

Lemma updateBlog_query_closed_form (targetObj : obj) :
  targetObj <> [] ->
  UserModel.updateBlog_query targetObj
  = match render targetObj with
    | Thrown error => Thrown error
    | Returned fields =>
        Returned ("UPDATE blogs SET "
                    ++ String.concat ", " (map set_assignment fields)
                    ++ " WHERE id = ?")%string
    end.
Proof.
  intros Hne. unfold UserModel.updateBlog_query.
  exact (forEach_entry_closed_form targetObj Hne 0 "UPDATE blogs SET ").
Qed.

(** ** Running a collaborator call whose result is known *)

Section Steps.
Variable B : Backend.

Lemma run_executeQuery (query : string) (params : value) (w : world B)
    (result : completion value) (s : db_state B) :
  executeQuery B query params (store w) = (result, s) ->
  Database_executeQuery B query params w
  = (result, {| store := s; trace := trace w ++ [ExecuteQuery query params] |}).
Proof.
  intros H. unfold Database_executeQuery. now rewrite H.
Qed.

Lemma run_findUserByAttribute (name : string) (v : value) (w : world B)
    (result : completion value) (s : db_state B) :
  findUserByAttribute B name v (store w) = (result, s) ->
  AuthModel_findUserByAttribute B name v w
  = (result, {| store := s; trace := trace w ++ [FindUserByAttribute name v] |}).
Proof.
  intros H. unfold AuthModel_findUserByAttribute. now rewrite H.
Qed.

Lemma run_getBlogById (blogId : value) (w : world B)
    (fetched : value) (s : db_state B) :
  executeQuery B "SELECT * FROM blogs WHERE id = ?" (VArr [blogId]) (store w)
  = (Returned fetched, s) ->
  UserModel.getBlogById B blogId w
  = (element0 fetched,
     {| store := s;
        trace := trace w ++ [ExecuteQuery "SELECT * FROM blogs WHERE id = ?"
                               (VArr [blogId])] |}).
Proof.
  intros H. unfold UserModel.getBlogById, bind, lift.
  now rewrite (run_executeQuery _ _ _ _ _ H).
Qed.

End Steps.

Lemma isAvailable_any_nonempty (targetObj : obj) (fields : list string) :
  isAvailable targetObj fields (Some false) = true -> targetObj <> [].
Proof.
  intros H ->. cbn [isAvailable] in H.
  induction fields as [|f fields IH]; simpl in H; [discriminate | auto].
Qed.

(** * The data-access layer *)

(** C8. For a non-empty field object whose values all have a string
    rendering, [UserModel.updateBlog] issues one statement whose text is
    [UPDATE blogs SET ], then every field as [name = 'value'] in enumeration
    order, separated by commas, with the name and the rendering of the value
    put into the text as they are, then [ WHERE id = ?]; the bound parameters
    are exactly [[blogId]].  When a value has no rendering, building the text
    throws and no statement is issued. *)
Theorem updateBlog_concatenates_every_field
    (B : Backend) (targetObj : obj) (blogId : value) (w : world B) :
  targetObj <> [] ->
  (forall fields : list (string * string),
     render targetObj = Returned fields ->
     let query :=
       ("UPDATE blogs SET " ++ String.concat ", " (map set_assignment fields)
          ++ " WHERE id = ?")%string in
     UserModel.updateBlog_query targetObj = Returned query
     /\ UserModel.updateBlog B targetObj blogId w
        = (fst (executeQuery B query (VArr [blogId]) (store w)),
           {| store := snd (executeQuery B query (VArr [blogId]) (store w));
              trace := trace w ++ [ExecuteQuery query (VArr [blogId])] |}))
  /\ (forall error : obj,
        render targetObj = Thrown error ->
        UserModel.updateBlog_query targetObj = Thrown error
        /\ UserModel.updateBlog B targetObj blogId w = (Thrown error, w)).
Proof.
  intros Hne. split.
  - intros fields Hfields query.
    assert (Hq : UserModel.updateBlog_query targetObj = Returned query).
    { rewrite (updateBlog_query_closed_form targetObj Hne), Hfields. reflexivity. }
    split; [exact Hq | ].
    unfold UserModel.updateBlog, bind, ret, lift. rewrite Hq.
    rewrite (run_executeQuery B query (VArr [blogId]) w _ _
               (surjective_pairing _)).
    now destruct (fst (executeQuery B query (VArr [blogId]) (store w))).
  - intros error Herror.
    assert (Hq : UserModel.updateBlog_query targetObj = Thrown error).
    { rewrite (updateBlog_query_closed_form targetObj Hne), Herror. reflexivity. }
    split; [exact Hq | ].
    unfold UserModel.updateBlog, bind, ret, lift. now rewrite Hq.
Qed.

Lemma updateBlog_concatenates_every_field_witness :
  UserModel.updateBlog Scripted.backend
    [("title", VStr "T"); ("views", VNum (num 12)); ("draft", VBool false);
     ("subtitle", VNull); ("tags", VArr [VStr "a"; VNum (num (-3))]);
     ("meta", VObj [("k", VStr "v")])]
    (VStr "3")
    (Scripted.start [Returned (VObj [("affectedRows", VNum (num 1))])])
  = (Returned (VObj [("affectedRows", VNum (num 1))]),
     Scripted.after []
       [ExecuteQuery
          "UPDATE blogs SET title = 'T', views = '12', draft = 'false', subtitle = 'null', tags = 'a,-3', meta = '[object Object]' WHERE id = ?"
          (VArr [VStr "3"])])
  /\ UserModel.updateBlog Scripted.backend
       [("title", VStr "T"); ("meta", VObj [("toString", VStr "x")])]
       (VStr "3")
       (Scripted.start [Returned (VObj [("affectedRows", VNum (num 1))])])
     = (Thrown (TypeError "Cannot convert object to primitive value"),
        Scripted.start [Returned (VObj [("affectedRows", VNum (num 1))])]).
Proof.
  split.
  - apply (proj1 (updateBlog_concatenates_every_field Scripted.backend
                    [("title", VStr "T"); ("views", VNum (num 12));
                     ("draft", VBool false); ("subtitle", VNull);
                     ("tags", VArr [VStr "a"; VNum (num (-3))]);
                     ("meta", VObj [("k", VStr "v")])]
                    (VStr "3")
                    (Scripted.start [Returned (VObj [("affectedRows", VNum (num 1))])])
                    ltac:(discriminate))
             [("title", "T"); ("views", "12"); ("draft", "false");
              ("subtitle", "null"); ("tags", "a,-3"); ("meta", "[object Object]")]
             eq_refl).
  - apply (proj2 (updateBlog_concatenates_every_field Scripted.backend
                    [("title", VStr "T"); ("meta", VObj [("toString", VStr "x")])]
                    (VStr "3")
                    (Scripted.start [Returned (VObj [("affectedRows", VNum (num 1))])])
                    ltac:(discriminate))
             (TypeError "Cannot convert object to primitive value")
             eq_refl).
Defined.

(** C9. With an empty field object the [forEach] callback never runs, so no
    [WHERE id] clause is attached: the statement issued is exactly
    [UPDATE blogs SET ], still with [[blogId]] as bound parameters. *)
Theorem updateBlog_empty_object_has_no_where
    (B : Backend) (blogId : value) (w : world B) :
  UserModel.updateBlog_query [] = Returned "UPDATE blogs SET "
  /\ UserModel.updateBlog B [] blogId w
     = (fst (executeQuery B "UPDATE blogs SET " (VArr [blogId]) (store w)),
        {| store := snd (executeQuery B "UPDATE blogs SET " (VArr [blogId]) (store w));
           trace := trace w ++ [ExecuteQuery "UPDATE blogs SET " (VArr [blogId])] |}).
Proof.
  split; [reflexivity | ].
  unfold UserModel.updateBlog, bind, ret, lift.
  change (UserModel.updateBlog_query []) with (@Returned string "UPDATE blogs SET ").
  cbv beta iota.
  rewrite (run_executeQuery B "UPDATE blogs SET " (VArr [blogId]) w _ _
             (surjective_pairing _)).
  now destruct (fst (executeQuery B "UPDATE blogs SET " (VArr [blogId]) (store w))).
Qed.

(** * The controller *)

(** ** Creating a blog *)

(** C5. When the body of a create-blog request lacks a required field (the
    owner field aside, which the controller itself fills in), the operation
    answers bad-request with [Some fields are missing] and does nothing else:
    no storage call is made and the store stays as it was. *)
Theorem createBlog_missing_field_is_bad_request
    (K : Constants) (B : Backend) (req : request) (res : response)
    (w : world B) (field : string) :
  In field (blogCreationRequiredFields K) ->
  field <> "userId" ->
  has_key (body req) field = false ->
  UserController.createBlog K B req res w
  = (Returned VUndefined,
     {| store := store w;
        trace := trace w ++ [SendResponse (BAD_REQUEST K)
                               (VStr "Some fields are missing")
                               VUndefined VUndefined] |}).
Proof.
  intros Hin Hne Hmissing.
  unfold UserController.createBlog.
  assert (Hcheck : isAvailable (set_prop (body req) "userId" (locals_user_id res))
                     (blogCreationRequiredFields K) None = false).
  { cbn [isAvailable].
    destruct (forallb _ _) eqn:Hall; [ | reflexivity].
    rewrite forallb_forall in Hall. specialize (Hall field Hin).
    rewrite has_key_set_other in Hall by congruence. congruence. }
  rewrite Hcheck. reflexivity.
Qed.

Lemma createBlog_missing_field_is_bad_request_witness :
  UserController.createBlog sample_constants Scripted.backend
    {| params_id := VUndefined; body := [("title", VStr "T")] |}
    {| locals_user_id := VNum (num 7) |}
    (Scripted.start [Returned (VObj [("insertId", VNum (num 42))])])
  = (Returned VUndefined,
     Scripted.after [Returned (VObj [("insertId", VNum (num 42))])]
       [SendResponse (VNum (num 400)) (VStr "Some fields are missing")
          VUndefined VUndefined]).
Proof.
  apply (createBlog_missing_field_is_bad_request sample_constants Scripted.backend
           {| params_id := VUndefined; body := [("title", VStr "T")] |}
           {| locals_user_id := VNum (num 7) |}
           (Scripted.start [Returned (VObj [("insertId", VNum (num 42))])])
           "description").
  - simpl. auto.
  - discriminate.
  - reflexivity.
Defined.

(** C4. A create-blog request whose body has a title and a description
    (these and the owner being all that creation requires) is stored with the
    caller's identity as owner, whatever [userId] the body carried; when the
    insert returns, the operation answers created with the payload
    [{id: insertId, title, description, userId}], [userId] again being the
    caller's identity. *)
Theorem createBlog_owner_is_caller
    (K : Constants) (B : Backend) (req : request) (res : response)
    (w : world B) (result insertId : value) (s : db_state B) :
  incl (blogCreationRequiredFields K) ["title"; "description"; "userId"] ->
  has_key (body req) "title" = true ->
  has_key (body req) "description" = true ->
  let title := get (body req) "title" in
  let description := get (body req) "description" in
  let caller := locals_user_id res in
  let row := VObj [("userId", caller); ("title", title); ("description", description)] in
  executeQuery B "INSERT INTO blogs SET ?" row (store w) = (Returned result, s) ->
  member result "insertId" = Returned insertId ->
  UserController.createBlog K B req res w
  = (Returned VUndefined,
     {| store := s;
        trace := trace w ++
          [ExecuteQuery "INSERT INTO blogs SET ?" row;
           SendResponse (SUCCESSFULLY_CREATED K) (VStr "Blog created successfully")
             (VObj [("id", insertId); ("title", title);
                    ("description", description); ("userId", caller)])
             VUndefined] |}).
Proof.
  intros Hincl Htitle Hdescription title description caller row Hinsert Hid.
  unfold UserController.createBlog.
  assert (Hcheck : isAvailable (set_prop (body req) "userId" (locals_user_id res))
                     (blogCreationRequiredFields K) None = true).
  { cbn [isAvailable]. apply forallb_forall. intros f Hf.
    apply Hincl in Hf. simpl in Hf.
    destruct Hf as [<- | [<- | [<- | []]]].
    - rewrite has_key_set_other by discriminate. exact Htitle.
    - rewrite has_key_set_other by discriminate. exact Hdescription.
    - apply has_key_set_same. }
  rewrite Hcheck. cbn [negb].
  rewrite get_set_same, !get_set_other by discriminate.
  unfold try_catch, UserModel.createBlog, bind, ret, lift, sendResponse, emit.
  fold title description caller row.
  rewrite (run_executeQuery B _ _ w _ _ Hinsert).
  rewrite Hid. cbn [store trace].
  now rewrite <- app_assoc.
Qed.

Lemma createBlog_owner_is_caller_witness :
  UserController.createBlog sample_constants Scripted.backend
    {| params_id := VUndefined;
       body := [("title", VStr "T"); ("userId", VNum (num 8)); ("description", VStr "D")] |}
    {| locals_user_id := VNum (num 7) |}
    (Scripted.start [Returned (VObj [("insertId", VNum (num 42))])])
  = (Returned VUndefined,
     Scripted.after []
       [ExecuteQuery "INSERT INTO blogs SET ?"
          (VObj [("userId", VNum (num 7)); ("title", VStr "T"); ("description", VStr "D")]);
        SendResponse (VNum (num 201)) (VStr "Blog created successfully")
          (VObj [("id", VNum (num 42)); ("title", VStr "T");
                 ("description", VStr "D"); ("userId", VNum (num 7))])
          VUndefined]).
Proof.
  apply (createBlog_owner_is_caller sample_constants Scripted.backend
           {| params_id := VUndefined;
              body := [("title", VStr "T"); ("userId", VNum (num 8));
                       ("description", VStr "D")] |}
           {| locals_user_id := VNum (num 7) |}
           (Scripted.start [Returned (VObj [("insertId", VNum (num 42))])])
           (VObj [("insertId", VNum (num 42))]) (VNum (num 42)) ([], [])).
  - intros f Hf. exact Hf.
  - reflexivity.
  - reflexivity.
  - reflexivity.
  - reflexivity.
Defined.

(** ** Updating and deleting a blog *)

(** C3. An update-blog request for a blog that exists but whose owner is not
    the caller is answered unauthorized; the fetch is the only storage call
    the operation makes, so the store is left as the fetch left it (and as it
    was, when fetching changes nothing). *)
Theorem updateBlog_by_other_user_is_rejected
    (K : Constants) (B : Backend) (req : request) (res : response)
    (w : world B) (fetched blog owner : value) (s : db_state B) :
  isAvailable (body req) (possibleBlogUpdateFields K) (Some false) = true ->
  executeQuery B "SELECT * FROM blogs WHERE id = ?" (VArr [params_id req]) (store w)
  = (Returned fetched, s) ->
  element0 fetched = Returned blog ->
  truthy blog = true ->
  member blog "userId" = Returned owner ->
  strict_equal owner (locals_user_id res) = false ->
  UserController.updateBlog K B req res w
  = (Returned VUndefined,
     {| store := s;
        trace := trace w ++
          [ExecuteQuery "SELECT * FROM blogs WHERE id = ?" (VArr [params_id req]);
           SendResponse (UNAUTHORIZED K) (VStr "You are not authorized")
             VUndefined VUndefined] |})
  /\ (s = store w ->
      store (snd (UserController.updateBlog K B req res w)) = store w).
Proof.
  intros Hpresent Hfetch Hrow Hblog Howner Hother.
  assert (Hrun : UserController.updateBlog K B req res w
                 = (Returned VUndefined,
                    {| store := s;
                       trace := trace w ++
                         [ExecuteQuery "SELECT * FROM blogs WHERE id = ?"
                            (VArr [params_id req]);
                          SendResponse (UNAUTHORIZED K) (VStr "You are not authorized")
                            VUndefined VUndefined] |})).
  { unfold UserController.updateBlog. rewrite Hpresent. run_controller.
    rewrite (run_getBlogById B _ w _ _ Hfetch), Hrow, Hblog, Howner, Hother.
    cbn [store trace negb]. now flatten_trace. }
  split; [exact Hrun | ].
  intros <-. now rewrite Hrun.
Qed.

Lemma updateBlog_by_other_user_is_rejected_witness :
  UserController.updateBlog sample_constants Scripted.backend
    {| params_id := VStr "1"; body := [("title", VStr "T")] |}
    {| locals_user_id := VNum (num 8) |}
    (Scripted.start
       [Returned (VArr [VObj [("id", VNum (num 1)); ("title", VStr "old");
                              ("description", VStr "D"); ("userId", VNum (num 7))]]);
        Returned (VObj [("affectedRows", VNum (num 1))])])
  = (Returned VUndefined,
     Scripted.after [Returned (VObj [("affectedRows", VNum (num 1))])]
       [ExecuteQuery "SELECT * FROM blogs WHERE id = ?" (VArr [VStr "1"]);
        SendResponse (VNum (num 401)) (VStr "You are not authorized")
          VUndefined VUndefined]).
Proof.
  apply (updateBlog_by_other_user_is_rejected sample_constants Scripted.backend
           {| params_id := VStr "1"; body := [("title", VStr "T")] |}
           {| locals_user_id := VNum (num 8) |}
           (Scripted.start
              [Returned (VArr [VObj [("id", VNum (num 1)); ("title", VStr "old");
                                     ("description", VStr "D"); ("userId", VNum (num 7))]]);
               Returned (VObj [("affectedRows", VNum (num 1))])])
           (VArr [VObj [("id", VNum (num 1)); ("title", VStr "old");
                        ("description", VStr "D"); ("userId", VNum (num 7))]])
           (VObj [("id", VNum (num 1)); ("title", VStr "old");
                  ("description", VStr "D"); ("userId", VNum (num 7))])
           (VNum (num 7))
           ([Returned (VObj [("affectedRows", VNum (num 1))])], []));
    reflexivity.
Defined.

Lemma message_suffix_differs (prefix blogId suffix1 suffix2 : string) :
  suffix1 <> suffix2 ->
  VStr (prefix ++ blogId ++ suffix1) <> VStr (prefix ++ blogId ++ suffix2).
Proof.
  intros Hne Heq.
  assert (H : (prefix ++ blogId ++ suffix1)%string
              = (prefix ++ blogId ++ suffix2)%string) by congruence.
  apply append_inv_head in H. apply append_inv_head in H. contradiction.
Qed.

(** What update-blog and delete-blog answer once the checks have passed and
    the mutating statement has returned or thrown. *)
Section AfterTheChecks.
Variables (K : Constants) (B : Backend).
Variables (req : request) (res : response) (w : world B).
Variables (s s' : db_state B) (idText : string).
Hypothesis Howned : caller_owns_fetched_blog B req res w s.
Hypothesis Hid : toString (params_id req) = Returned idText.

Lemma updateBlog_rows_answer (query : string) (updated rows : value) :
  isAvailable (body req) (possibleBlogUpdateFields K) (Some false) = true ->
  UserModel.updateBlog_query (body req) = Returned query ->
  executeQuery B query (VArr [params_id req]) s = (Returned updated, s') ->
  member updated "affectedRows" = Returned rows ->
  UserController.updateBlog K B req res w
  = (Returned VUndefined,
     {| store := s';
        trace := trace w ++
          [ExecuteQuery "SELECT * FROM blogs WHERE id = ?" (VArr [params_id req]);
           ExecuteQuery query (VArr [params_id req]);
           if truthy rows
           then SendResponse (OK K)
                  (VStr ("Blog with id " ++ idText ++ " updated successfully"))
                  VUndefined VUndefined
           else SendResponse (BAD_REQUEST K)
                  (VStr ("Blog with id " ++ idText ++ " could not be updated"))
                  VUndefined VUndefined] |}).
Proof.
  destruct Howned as (fetched & blog & owner & Hfetch & Hrow & Hblog & Howner & Hsame).
  intros Hpresent Hquery Hrun Hrows.
  unfold UserController.updateBlog. rewrite Hpresent. run_controller.
  rewrite (run_getBlogById B _ w _ _ Hfetch), Hrow, Hblog, Howner, Hsame, Hquery, Hid.
  cbn [store trace negb].
  erewrite run_executeQuery by (cbn [store]; exact Hrun).
  cbv beta iota. rewrite Hrows.
  destruct (truthy rows); cbn [store trace]; now flatten_trace.
Qed.

Lemma updateBlog_thrown_answer (query : string) (error : obj) :
  isAvailable (body req) (possibleBlogUpdateFields K) (Some false) = true ->
  UserModel.updateBlog_query (body req) = Returned query ->
  executeQuery B query (VArr [params_id req]) s = (Thrown error, s') ->
  UserController.updateBlog K B req res w
  = (Returned VUndefined,
     {| store := s';
        trace := trace w ++
          [ExecuteQuery "SELECT * FROM blogs WHERE id = ?" (VArr [params_id req]);
           ExecuteQuery query (VArr [params_id req]);
           error_response K error] |}).
Proof.
  destruct Howned as (fetched & blog & owner & Hfetch & Hrow & Hblog & Howner & Hsame).
  intros Hpresent Hquery Hrun.
  unfold UserController.updateBlog. rewrite Hpresent. run_controller.
  rewrite (run_getBlogById B _ w _ _ Hfetch), Hrow, Hblog, Howner, Hsame, Hquery.
  cbn [store trace negb].
  erewrite run_executeQuery by (cbn [store]; exact Hrun).
  cbv beta iota. cbn [store trace]. now flatten_trace.
Qed.

Lemma deleteBlog_rows_answer (deleted rows : value) :
  executeQuery B "DELETE FROM blogs WHERE id = ?" (VArr [params_id req]) s
  = (Returned deleted, s') ->
  member deleted "affectedRows" = Returned rows ->
  UserController.deleteBlog K B req res w
  = (Returned VUndefined,
     {| store := s';
        trace := trace w ++
          [ExecuteQuery "SELECT * FROM blogs WHERE id = ?" (VArr [params_id req]);
           ExecuteQuery "DELETE FROM blogs WHERE id = ?" (VArr [params_id req]);
           if truthy rows
           then SendResponse (OK K)
                  (VStr ("Blog with id " ++ idText ++ " deleted successfully"))
                  VUndefined VUndefined
           else SendResponse (BAD_REQUEST K)
                  (VStr ("Blog with id " ++ idText ++ " could not be deleted"))
                  VUndefined VUndefined] |}).
Proof.
  destruct Howned as (fetched & blog & owner & Hfetch & Hrow & Hblog & Howner & Hsame).
  intros Hrun Hrows.
  unfold UserController.deleteBlog. run_controller.
  rewrite (run_getBlogById B _ w _ _ Hfetch), Hrow, Hblog, Howner, Hsame, Hid.
  cbn [store trace negb].
  erewrite run_executeQuery by (cbn [store]; exact Hrun).
  cbv beta iota. rewrite Hrows.
  destruct (truthy rows); cbn [store trace]; now flatten_trace.
Qed.

Lemma deleteBlog_thrown_answer (error : obj) :
  executeQuery B "DELETE FROM blogs WHERE id = ?" (VArr [params_id req]) s
  = (Thrown error, s') ->
  UserController.deleteBlog K B req res w
  = (Returned VUndefined,
     {| store := s';
        trace := trace w ++
          [ExecuteQuery "SELECT * FROM blogs WHERE id = ?" (VArr [params_id req]);
           ExecuteQuery "DELETE FROM blogs WHERE id = ?" (VArr [params_id req]);
           error_response K error] |}).
Proof.
  destruct Howned as (fetched & blog & owner & Hfetch & Hrow & Hblog & Howner & Hsame).
  intros Hrun.
  unfold UserController.deleteBlog. run_controller.
  rewrite (run_getBlogById B _ w _ _ Hfetch), Hrow, Hblog, Howner, Hsame.
  cbn [store trace negb].
  erewrite run_executeQuery by (cbn [store]; exact Hrun).
  cbv beta iota. cbn [store trace]. now flatten_trace.
Qed.

End AfterTheChecks.

Lemma truthy_nonzero (n : safe_integer) : number n <> 0%Z -> truthy (VNum n) = true.
Proof.
  intros H. cbn [truthy]. apply Z.eqb_neq in H. now rewrite H.
Qed.

(** C6. When an update-blog request has passed the presence, existence and
    ownership checks and the UPDATE reports zero affected rows, the
    operation answers bad-request with [could not be updated] and neither
    payload nor error detail.  That is an outcome of its own: a non-zero
    count gives the [updated successfully] answer with [STATUS_CODES.OK], a
    thrown error gives the answer of the [catch] block, and the zero-rows
    answer differs from both.  Delete-blog does the same with the DELETE,
    [could not be deleted] and [deleted successfully]; it asks nothing of
    the body. *)
Theorem zero_affected_rows_is_its_own_outcome (K : Constants) (B : Backend) :
  (forall (req : request) (res : response) (w : world B) (s su : db_state B)
          (query idText : string) (outcome : completion value),
      isAvailable (body req) (possibleBlogUpdateFields K) (Some false) = true ->
      caller_owns_fetched_blog B req res w s ->
      UserModel.updateBlog_query (body req) = Returned query ->
      toString (params_id req) = Returned idText ->
      executeQuery B query (VArr [params_id req]) s = (outcome, su) ->
      let failed :=
        SendResponse (BAD_REQUEST K)
          (VStr ("Blog with id " ++ idText ++ " could not be updated"))
          VUndefined VUndefined in
      let succeeded :=
        SendResponse (OK K)
          (VStr ("Blog with id " ++ idText ++ " updated successfully"))
          VUndefined VUndefined in
      let answer (sent : event) :=
        (Returned VUndefined,
         {| store := su;
            trace := trace w ++
              [ExecuteQuery "SELECT * FROM blogs WHERE id = ?" (VArr [params_id req]);
               ExecuteQuery query (VArr [params_id req]);
               sent] |}) in
      (forall updated : value,
          outcome = Returned updated ->
          member updated "affectedRows" = Returned (VNum (num 0)) ->
          UserController.updateBlog K B req res w = answer failed)
      /\ (forall (updated : value) (n : safe_integer),
            outcome = Returned updated ->
            member updated "affectedRows" = Returned (VNum n) ->
            number n <> 0%Z ->
            UserController.updateBlog K B req res w = answer succeeded)
      /\ (forall error : obj,
            outcome = Thrown error ->
            UserController.updateBlog K B req res w = answer (error_response K error))
      /\ failed <> succeeded
      /\ (forall error : obj, failed <> error_response K error))
  /\ (forall (req : request) (res : response) (w : world B) (s sd : db_state B)
            (idText : string) (outcome : completion value),
        caller_owns_fetched_blog B req res w s ->
        toString (params_id req) = Returned idText ->
        executeQuery B "DELETE FROM blogs WHERE id = ?" (VArr [params_id req]) s
        = (outcome, sd) ->
        let failed :=
          SendResponse (BAD_REQUEST K)
            (VStr ("Blog with id " ++ idText ++ " could not be deleted"))
            VUndefined VUndefined in
        let succeeded :=
          SendResponse (OK K)
            (VStr ("Blog with id " ++ idText ++ " deleted successfully"))
            VUndefined VUndefined in
        let answer (sent : event) :=
          (Returned VUndefined,
           {| store := sd;
              trace := trace w ++
                [ExecuteQuery "SELECT * FROM blogs WHERE id = ?" (VArr [params_id req]);
                 ExecuteQuery "DELETE FROM blogs WHERE id = ?" (VArr [params_id req]);
                 sent] |}) in
        (forall deleted : value,
            outcome = Returned deleted ->
            member deleted "affectedRows" = Returned (VNum (num 0)) ->
            UserController.deleteBlog K B req res w = answer failed)
        /\ (forall (deleted : value) (n : safe_integer),
              outcome = Returned deleted ->
              member deleted "affectedRows" = Returned (VNum n) ->
              number n <> 0%Z ->
              UserController.deleteBlog K B req res w = answer succeeded)
        /\ (forall error : obj,
              outcome = Thrown error ->
              UserController.deleteBlog K B req res w = answer (error_response K error))
        /\ failed <> succeeded
        /\ (forall error : obj, failed <> error_response K error)).
Proof.
  split.
  - intros req res w s su query idText outcome Hpresent Howned Hquery Hid Hrun
      failed succeeded answer.
    subst failed succeeded answer. repeat split.
    + intros updated -> Hrows.
      now rewrite (updateBlog_rows_answer K B req res w s su idText Howned Hid
                     query updated _ Hpresent Hquery Hrun Hrows).
    + intros updated n -> Hrows Hn.
      rewrite (updateBlog_rows_answer K B req res w s su idText Howned Hid
                 query updated _ Hpresent Hquery Hrun Hrows).
      now rewrite (truthy_nonzero n Hn).
    + intros error ->.
      exact (updateBlog_thrown_answer K B req res w s su Howned
               query error Hpresent Hquery Hrun).
    + intros Heq.
      apply (message_suffix_differs "Blog with id " idText
               " could not be updated" " updated successfully");
        [discriminate | congruence].
    + intros error Heq. unfold error_response in Heq. discriminate.
  - intros req res w s sd idText outcome Howned Hid Hrun failed succeeded answer.
    subst failed succeeded answer. repeat split.
    + intros deleted -> Hrows.
      now rewrite (deleteBlog_rows_answer K B req res w s sd idText Howned Hid
                     deleted _ Hrun Hrows).
    + intros deleted n -> Hrows Hn.
      rewrite (deleteBlog_rows_answer K B req res w s sd idText Howned Hid
                 deleted _ Hrun Hrows).
      now rewrite (truthy_nonzero n Hn).
    + intros error ->.
      exact (deleteBlog_thrown_answer K B req res w s sd Howned error Hrun).
    + intros Heq.
      apply (message_suffix_differs "Blog with id " idText
               " could not be deleted" " deleted successfully");
        [discriminate | congruence].
    + intros error Heq. unfold error_response in Heq. discriminate.
Qed.

Lemma zero_affected_rows_is_its_own_outcome_witness :
  let res := {| locals_user_id := VNum (num 7) |} in
  let row := VObj [("id", VNum (num 1)); ("title", VStr "same");
                   ("description", VStr "D"); ("userId", VNum (num 7))] in
  let w := Scripted.start
             [Returned (VArr [row]);
              Returned (VObj [("affectedRows", VNum (num 0))])] in
  UserController.updateBlog sample_constants Scripted.backend
    {| params_id := VStr "1"; body := [("title", VStr "same")] |} res w
  = (Returned VUndefined,
     Scripted.after []
       [ExecuteQuery "SELECT * FROM blogs WHERE id = ?" (VArr [VStr "1"]);
        ExecuteQuery "UPDATE blogs SET title = 'same' WHERE id = ?" (VArr [VStr "1"]);
        SendResponse (VNum (num 400)) (VStr "Blog with id 1 could not be updated")
          VUndefined VUndefined])
  /\ UserController.deleteBlog sample_constants Scripted.backend
       {| params_id := VStr "1"; body := [] |} res w
     = (Returned VUndefined,
        Scripted.after []
          [ExecuteQuery "SELECT * FROM blogs WHERE id = ?" (VArr [VStr "1"]);
           ExecuteQuery "DELETE FROM blogs WHERE id = ?" (VArr [VStr "1"]);
           SendResponse (VNum (num 400)) (VStr "Blog with id 1 could not be deleted")
             VUndefined VUndefined]).
Proof.
  intros res row w.
  destruct (zero_affected_rows_is_its_own_outcome sample_constants Scripted.backend)
    as [Hupdate Hdelete].
  split.
  - refine (proj1 (Hupdate
                     {| params_id := VStr "1"; body := [("title", VStr "same")] |}
                     res w
                     ([Returned (VObj [("affectedRows", VNum (num 0))])], [])
                     ([], [])
                     "UPDATE blogs SET title = 'same' WHERE id = ?" "1"
                     (Returned (VObj [("affectedRows", VNum (num 0))]))
                     eq_refl _ eq_refl eq_refl eq_refl)
                  (VObj [("affectedRows", VNum (num 0))]) eq_refl eq_refl).
    exists (VArr [row]), row, (VNum (num 7)). repeat split.
  - refine (proj1 (Hdelete
                     {| params_id := VStr "1"; body := [] |}
                     res w
                     ([Returned (VObj [("affectedRows", VNum (num 0))])], [])
                     ([], [])
                     "1"
                     (Returned (VObj [("affectedRows", VNum (num 0))]))
                     _ eq_refl eq_refl)
                  (VObj [("affectedRows", VNum (num 0))]) eq_refl eq_refl).
    exists (VArr [row]), row, (VNum (num 7)). repeat split.
Defined.

(** ** Looking a record up *)

(** C7. When the blog a get-blog-by-id request asks for is absent, the
    response carries [STATUS_CODES.OK], the status the successful fetch
    carries too; the message says the blog was not found and neither payload
    nor error detail is attached.  Get-user-by-id does the same for an
    absent user, whatever the blog table holds. *)
Theorem absent_record_is_reported_with_ok (K : Constants) (B : Backend) :
  (forall (req : request) (res : response) (w : world B)
          (fetched blog : value) (s : db_state B) (idText : string),
      executeQuery B "SELECT * FROM blogs WHERE id = ?" (VArr [params_id req]) (store w)
      = (Returned fetched, s) ->
      element0 fetched = Returned blog ->
      truthy blog = false ->
      toString (params_id req) = Returned idText ->
      UserController.getBlogById K B req res w
      = (Returned VUndefined,
         {| store := s;
            trace := trace w ++
              [ExecuteQuery "SELECT * FROM blogs WHERE id = ?" (VArr [params_id req]);
               SendResponse (OK K)
                 (VStr ("Blog with id " ++ idText ++ " not found"))
                 VUndefined VUndefined] |}))
  /\ (forall (req : request) (res : response) (w : world B)
            (user : value) (s : db_state B) (idText : string),
        findUserByAttribute B "id" (params_id req) (store w) = (Returned user, s) ->
        truthy user = false ->
        toString (params_id req) = Returned idText ->
        UserController.getUserById K B req res w
        = (Returned VUndefined,
           {| store := s;
              trace := trace w ++
                [FindUserByAttribute "id" (params_id req);
                 SendResponse (OK K)
                   (VStr ("User with id " ++ idText ++ " does not exist"))
                   VUndefined VUndefined] |}))
  /\ (forall (req : request) (res : response) (w : world B)
            (fetched blog : value) (s : db_state B) (idText : string),
        executeQuery B "SELECT * FROM blogs WHERE id = ?" (VArr [params_id req]) (store w)
        = (Returned fetched, s) ->
        element0 fetched = Returned blog ->
        truthy blog = true ->
        toString (params_id req) = Returned idText ->
        UserController.getBlogById K B req res w
        = (Returned VUndefined,
           {| store := s;
              trace := trace w ++
                [ExecuteQuery "SELECT * FROM blogs WHERE id = ?" (VArr [params_id req]);
                 SendResponse (OK K)
                   (VStr ("Blog with id " ++ idText ++ " fetched successfully"))
                   blog VUndefined] |}))
  /\ (forall (req : request) (res : response) (w : world B)
            (user id username : value) (s : db_state B) (idText : string),
        findUserByAttribute B "id" (params_id req) (store w) = (Returned user, s) ->
        truthy user = true ->
        member user "id" = Returned id ->
        strict_equal id (locals_user_id res) = true ->
        member user "username" = Returned username ->
        toString (params_id req) = Returned idText ->
        UserController.getUserById K B req res w
        = (Returned VUndefined,
           {| store := s;
              trace := trace w ++
                [FindUserByAttribute "id" (params_id req);
                 SendResponse (OK K)
                   (VStr ("User with id " ++ idText ++ " fetched successfully"))
                   (VObj [("id", id); ("username", username)])
                   VUndefined] |})).
Proof.
  repeat split.
  - intros req res w fetched blog s idText Hfetch Hrow Hblog Hid.
    unfold UserController.getBlogById. run_controller.
    rewrite (run_getBlogById B _ w _ _ Hfetch), Hrow, Hblog, Hid.
    cbn [store trace negb]. now flatten_trace.
  - intros req res w user s idText Hfind Huser Hid.
    unfold UserController.getUserById. run_controller.
    rewrite (run_findUserByAttribute B _ _ w _ _ Hfind), Huser, Hid.
    cbn [store trace negb]. now flatten_trace.
  - intros req res w fetched blog s idText Hfetch Hrow Hblog Hid.
    unfold UserController.getBlogById. run_controller.
    rewrite (run_getBlogById B _ w _ _ Hfetch), Hrow, Hblog, Hid.
    cbn [store trace negb]. now flatten_trace.
  - intros req res w user id username s idText Hfind Huser Hident Hsame Hname Hid.
    unfold UserController.getUserById. run_controller.
    rewrite (run_findUserByAttribute B _ _ w _ _ Hfind), Huser, Hident, Hsame, Hid.
    cbn [negb]. rewrite Hname.
    cbn [store trace negb]. now flatten_trace.
Qed.

Lemma absent_record_is_reported_with_ok_witness :
  let req := {| params_id := VStr "7"; body := [] |} in
  let res := {| locals_user_id := VNum (num 7) |} in
  UserController.getBlogById sample_constants Scripted.backend req res
    (Scripted.world_of [Returned (VArr [])]
       [Returned (VObj [("id", VNum (num 7)); ("username", VStr "alice")])] [])
  = (Returned VUndefined,
     Scripted.world_of []
       [Returned (VObj [("id", VNum (num 7)); ("username", VStr "alice")])]
       [ExecuteQuery "SELECT * FROM blogs WHERE id = ?" (VArr [VStr "7"]);
        SendResponse (VNum (num 200)) (VStr "Blog with id 7 not found")
          VUndefined VUndefined])
  /\ UserController.getUserById sample_constants Scripted.backend req res
       (Scripted.world_of [Returned (VArr [VObj [("id", VNum (num 7))]])]
          [Returned VUndefined] [])
     = (Returned VUndefined,
        Scripted.world_of [Returned (VArr [VObj [("id", VNum (num 7))]])] []
          [FindUserByAttribute "id" (VStr "7");
           SendResponse (VNum (num 200)) (VStr "User with id 7 does not exist")
             VUndefined VUndefined]).
Proof.
  intros req res.
  destruct (absent_record_is_reported_with_ok sample_constants Scripted.backend)
    as (Hblog & Huser & _).
  split.
  - exact (Hblog req res
             (Scripted.world_of [Returned (VArr [])]
                [Returned (VObj [("id", VNum (num 7)); ("username", VStr "alice")])] [])
             (VArr []) VUndefined
             ([], [Returned (VObj [("id", VNum (num 7)); ("username", VStr "alice")])])
             "7" eq_refl eq_refl eq_refl eq_refl).
  - exact (Huser req res
             (Scripted.world_of [Returned (VArr [VObj [("id", VNum (num 7))]])]
                [Returned VUndefined] [])
             VUndefined
             ([Returned (VArr [VObj [("id", VNum (num 7))]])], [])
             "7" eq_refl eq_refl eq_refl).
Defined.

(** ** What an update writes *)

(** C1, as stated, fails.  The allow-list is
    [["title"; "description"]]; the owner of blog 1 sends a body with the
    allow-listed [title] and also [userId]; the request passes the presence
    check, and the UPDATE statement handed to storage assigns [userId], a
    field outside the allow-list. *)
Lemma updateBlog_writes_field_outside_allow_list :
  let req := {| params_id := VStr "1";
                body := [("title", VStr "T"); ("userId", VNum (num 8))] |} in
  let res := {| locals_user_id := VNum (num 7) |} in
  let w := Scripted.start
             [Returned (VArr [VObj [("id", VNum (num 1)); ("title", VStr "old");
                                    ("description", VStr "D");
                                    ("userId", VNum (num 7))]]);
              Returned (VObj [("affectedRows", VNum (num 1))])] in
  isAvailable (body req) (possibleBlogUpdateFields sample_constants) (Some false) = true
  /\ has_key (body req) "userId" = true
  /\ ~ In "userId" (possibleBlogUpdateFields sample_constants)
  /\ UserController.updateBlog sample_constants Scripted.backend req res w
     = (Returned VUndefined,
        Scripted.after []
          [ExecuteQuery "SELECT * FROM blogs WHERE id = ?" (VArr [VStr "1"]);
           ExecuteQuery "UPDATE blogs SET title = 'T', userId = '8' WHERE id = ?"
             (VArr [VStr "1"]);
           SendResponse (VNum (num 200)) (VStr "Blog with id 1 updated successfully")
             VUndefined VUndefined]).
Proof.
  intros req res w. repeat split.
  simpl. intros [H | [H | []]]; discriminate.
Qed.

(** C1, amended.  An update-blog request that passes the presence check
    (at least one allow-listed field in the body) and the existence and
    ownership checks, and whose body values all have a string rendering,
    hands the whole request body to the data-access layer: the one UPDATE
    statement issued assigns every field of the body, in enumeration order,
    allow-listed or not, and is followed by one response. *)
Theorem updateBlog_writes_every_body_field
    (K : Constants) (B : Backend) (req : request) (res : response)
    (w : world B) (fetched blog owner : value) (s : db_state B)
    (fields : list (string * string)) :
  let blogId := params_id req in
  isAvailable (body req) (possibleBlogUpdateFields K) (Some false) = true ->
  executeQuery B "SELECT * FROM blogs WHERE id = ?" (VArr [blogId]) (store w)
  = (Returned fetched, s) ->
  element0 fetched = Returned blog ->
  truthy blog = true ->
  member blog "userId" = Returned owner ->
  strict_equal owner (locals_user_id res) = true ->
  render (body req) = Returned fields ->
  map fst fields = map fst (body req)
  /\ exists (statusCode message payload errorDetail : value) (s' : db_state B),
       UserController.updateBlog K B req res w
       = (Returned VUndefined,
          {| store := s';
             trace := trace w ++
               [ExecuteQuery "SELECT * FROM blogs WHERE id = ?" (VArr [blogId]);
                ExecuteQuery
                  ("UPDATE blogs SET "
                     ++ String.concat ", " (map set_assignment fields)
                     ++ " WHERE id = ?")
                  (VArr [blogId]);
                SendResponse statusCode message payload errorDetail] |}).
Proof.
  intros blogId Hpresent Hfetch Hrow Hblog Howner Hsame Hfields. subst blogId.
  split; [exact (render_keys _ _ Hfields) | ].
  assert (Hquery : UserModel.updateBlog_query (body req)
                   = Returned ("UPDATE blogs SET "
                                 ++ String.concat ", " (map set_assignment fields)
                                 ++ " WHERE id = ?")%string).
  { rewrite updateBlog_query_closed_form
      by exact (isAvailable_any_nonempty _ _ Hpresent).
    now rewrite Hfields. }
  unfold UserController.updateBlog. rewrite Hpresent. run_controller.
  rewrite (run_getBlogById B _ w _ _ Hfetch), Hrow, Hblog, Howner, Hsame, Hquery.
  cbn [store trace negb].
  erewrite run_executeQuery by (cbn [store]; apply surjective_pairing).
  destruct (executeQuery B _ (VArr [params_id req]) s) as [[updated | error] s'].
  - cbn [fst snd]. cbv beta iota.
    destruct (member updated "affectedRows") as [affectedRows | error].
    + destruct (truthy affectedRows);
        destruct (toString (params_id req));
        do 5 eexists; cbn [store trace]; flatten_trace; reflexivity.
    + do 5 eexists; cbn [store trace]; flatten_trace; reflexivity.
  - cbn [fst snd]. cbv beta iota.
    do 5 eexists; cbn [store trace]; flatten_trace; reflexivity.
Qed.

Lemma updateBlog_writes_every_body_field_witness :
  exists (statusCode message payload errorDetail : value)
         (s' : db_state Scripted.backend),
    UserController.updateBlog sample_constants Scripted.backend
      {| params_id := VStr "1";
         body := [("title", VStr "T"); ("userId", VNum (num 8))] |}
      {| locals_user_id := VNum (num 7) |}
      (Scripted.start
         [Returned (VArr [VObj [("id", VNum (num 1)); ("title", VStr "old");
                                ("description", VStr "D");
                                ("userId", VNum (num 7))]]);
          Returned (VObj [("affectedRows", VNum (num 1))])])
    = (Returned VUndefined,
       {| store := s';
          trace :=
            [ExecuteQuery "SELECT * FROM blogs WHERE id = ?" (VArr [VStr "1"]);
             ExecuteQuery "UPDATE blogs SET title = 'T', userId = '8' WHERE id = ?"
               (VArr [VStr "1"]);
             SendResponse statusCode message payload errorDetail] |}).
Proof.
  apply (updateBlog_writes_every_body_field sample_constants Scripted.backend
           {| params_id := VStr "1";
              body := [("title", VStr "T"); ("userId", VNum (num 8))] |}
           {| locals_user_id := VNum (num 7) |}
           (Scripted.start
              [Returned (VArr [VObj [("id", VNum (num 1)); ("title", VStr "old");
                                     ("description", VStr "D");
                                     ("userId", VNum (num 7))]]);
               Returned (VObj [("affectedRows", VNum (num 1))])])
           (VArr [VObj [("id", VNum (num 1)); ("title", VStr "old");
                        ("description", VStr "D"); ("userId", VNum (num 7))]])
           (VObj [("id", VNum (num 1)); ("title", VStr "old");
                  ("description", VStr "D"); ("userId", VNum (num 7))])
           (VNum (num 7))
           ([Returned (VObj [("affectedRows", VNum (num 1))])], [])
           [("title", "T"); ("userId", "8")]);
    reflexivity.
Defined.

(** ** Updating a user *)

(** C2 does not hold of the code.  An update-user request that passes the
    presence check, finds its user and comes from that user never reaches a
    user-update method: [UserModel] has none, the call raises a [TypeError],
    and the operation answers internal-server-error without any write. *)
Example updateUser_by_owner_ends_in_type_error :
  UserController.updateUser sample_constants Scripted.backend
    {| params_id := VStr "7"; body := [("username", VStr "bob")] |}
    {| locals_user_id := VNum (num 7) |}
    (Scripted.world_of
       [Returned (VObj [("affectedRows", VNum (num 1))])]
       [Returned (VObj [("id", VNum (num 7)); ("username", VStr "alice")])] [])
  = (Returned VUndefined,
     Scripted.world_of [Returned (VObj [("affectedRows", VNum (num 1))])] []
       [FindUserByAttribute "id" (VStr "7");
        SendResponse (VNum (num 500)) (VStr "UserModel.updateUser is not a function")
          (VArr [])
          (VObj [("message", VStr "UserModel.updateUser is not a function")])]).
Proof. reflexivity. Qed.

(** Whatever the authentication model and the body hold, an update-user
    request let through by all three checks ends the same way. *)
Lemma updateUser_never_reaches_storage
    (K : Constants) (B : Backend) (req : request) (res : response)
    (w : world B) (user id : value) (s : db_state B) :
  isAvailable (body req) (userUpdateFields K) (Some false) = true ->
  findUserByAttribute B "id" (params_id req) (store w) = (Returned user, s) ->
  truthy user = true ->
  member user "id" = Returned id ->
  strict_equal id (locals_user_id res) = true ->
  UserController.updateUser K B req res w
  = (Returned VUndefined,
     {| store := s;
        trace := trace w ++
          [FindUserByAttribute "id" (params_id req);
           SendResponse (INTERNAL_SERVER_ERROR K)
             (VStr "UserModel.updateUser is not a function")
             (VArr [])
             (VObj (TypeError "UserModel.updateUser is not a function"))] |}).
Proof.
  intros Hpresent Hfind Huser Hid Hsame.
  unfold UserController.updateUser. rewrite Hpresent. run_controller.
  rewrite (run_findUserByAttribute B _ _ w _ _ Hfind), Huser, Hid, Hsame.
  cbn [store trace negb]. now flatten_trace.
Qed.

(** ** Every operation answers once *)

(** C10. Each of the seven controller operations, for every request, every
    caller and every way the collaborators behave (a record or none, any
    affected-row count, a thrown error), returns normally having sent exactly
    one response, which is the last thing it does; everything before it is a
    storage or lookup call. *)
Theorem every_operation_responds_exactly_once (K : Constants) (B : Backend) :
  responds_exactly_once (UserController.getAllBlogs K B)
  /\ responds_exactly_once (UserController.createBlog K B)
  /\ responds_exactly_once (UserController.getBlogById K B)
  /\ responds_exactly_once (UserController.updateBlog K B)
  /\ responds_exactly_once (UserController.deleteBlog K B)
  /\ responds_exactly_once (UserController.getUserById K B)
  /\ responds_exactly_once (UserController.updateUser K B).
Proof.
  repeat split.
  - unfold UserController.getAllBlogs. responds.
  - unfold UserController.createBlog. responds.
  - unfold UserController.getBlogById. responds.
  - unfold UserController.updateBlog. responds.
  - unfold UserController.deleteBlog. responds.
  - unfold UserController.getUserById. responds.
  - unfold UserController.updateUser. responds.
Qed.

(** * Further properties of the controller and the data-access layer *)

(** ** Which statements an operation can issue *)

(** X1. On every path, delete-blog issues the fetch and then at most one
    more statement, the parameterized DELETE for the path id; the DELETE is
    issued only when the fetch returned a blog whose [userId] is strictly
    equal to the caller's identity. *)
Theorem deleteBlog_deletes_only_for_owner
    (K : Constants) (B : Backend) (req : request) (res : response) (w : world B) :
  let blogId := params_id req in
  let select := ExecuteQuery "SELECT * FROM blogs WHERE id = ?" (VArr [blogId]) in
  let delete := ExecuteQuery "DELETE FROM blogs WHERE id = ?" (VArr [blogId]) in
  exists (statusCode message payload errorDetail : value) (s' : db_state B),
    UserController.deleteBlog K B req res w
    = (Returned VUndefined,
       {| store := s';
          trace := trace w ++
            [select; SendResponse statusCode message payload errorDetail] |})
    \/ (UserController.deleteBlog K B req res w
        = (Returned VUndefined,
           {| store := s';
              trace := trace w ++
                [select; delete;
                 SendResponse statusCode message payload errorDetail] |})
        /\ exists (fetched blog owner : value) (s : db_state B),
             executeQuery B "SELECT * FROM blogs WHERE id = ?" (VArr [blogId])
               (store w) = (Returned fetched, s)
             /\ element0 fetched = Returned blog
             /\ truthy blog = true
             /\ member blog "userId" = Returned owner
             /\ strict_equal owner (locals_user_id res) = true).
Proof.
  intros blogId select delete. subst blogId select delete.
  unfold UserController.deleteBlog. every_path;
    do 5 eexists;
    first [ left; reflexivity
          | right; split;
            [ reflexivity | do 4 eexists; repeat split; eassumption ] ].
Qed.

(** X2. On every path, update-blog either answers without touching storage
    (no allow-listed field in the body), or issues the fetch alone (which
    includes the case of a body value without string rendering, where
    building the statement throws), or the fetch followed by the one UPDATE
    whose text [UserModel.updateBlog] builds from the request body; the
    UPDATE is issued only when the body passed the presence check and the
    fetch returned a blog whose [userId] is strictly equal to the caller's
    identity. *)
Theorem updateBlog_updates_only_for_owner
    (K : Constants) (B : Backend) (req : request) (res : response) (w : world B) :
  let blogId := params_id req in
  let select := ExecuteQuery "SELECT * FROM blogs WHERE id = ?" (VArr [blogId]) in
  exists (statusCode message payload errorDetail : value) (s' : db_state B),
    UserController.updateBlog K B req res w
    = (Returned VUndefined,
       {| store := store w;
          trace := trace w ++
            [SendResponse statusCode message payload errorDetail] |})
    \/ UserController.updateBlog K B req res w
       = (Returned VUndefined,
          {| store := s';
             trace := trace w ++
               [select; SendResponse statusCode message payload errorDetail] |})
    \/ (exists query : string,
          UserModel.updateBlog_query (body req) = Returned query
          /\ UserController.updateBlog K B req res w
             = (Returned VUndefined,
                {| store := s';
                   trace := trace w ++
                     [select; ExecuteQuery query (VArr [blogId]);
                      SendResponse statusCode message payload errorDetail] |})
          /\ isAvailable (body req) (possibleBlogUpdateFields K) (Some false) = true
          /\ exists (fetched blog owner : value) (s : db_state B),
               executeQuery B "SELECT * FROM blogs WHERE id = ?" (VArr [blogId])
                 (store w) = (Returned fetched, s)
               /\ element0 fetched = Returned blog
               /\ truthy blog = true
               /\ member blog "userId" = Returned owner
               /\ strict_equal owner (locals_user_id res) = true).
Proof.
  intros blogId select. subst blogId select.
  unfold UserController.updateBlog.
  destruct (isAvailable (body req) (possibleBlogUpdateFields K) (Some false))
    eqn:Hpresent; cbn [negb].
  - every_path;
      do 5 eexists;
      first [ right; left; reflexivity
            | right; right; eexists; split;
              [ reflexivity
              | split;
                [ reflexivity
                | split; [ reflexivity
                         | do 4 eexists; repeat split; eassumption ] ] ] ].
  - run_controller.
    exists (BAD_REQUEST K), (VStr "Fields to be updated does not exist"),
      VUndefined, VUndefined, (store w).
    left. reflexivity.
Qed.

(** X3. On every path, create-blog either answers bad-request without
    touching storage, or issues exactly one statement: the INSERT whose row
    has the three columns [userId], [title], [description] and nothing else
    from the body, [userId] being the caller's identity. *)
Theorem createBlog_inserts_only_the_callers_row
    (K : Constants) (B : Backend) (req : request) (res : response) (w : world B) :
  let row := VObj [("userId", locals_user_id res);
                   ("title", get (body req) "title");
                   ("description", get (body req) "description")] in
  UserController.createBlog K B req res w
  = (Returned VUndefined,
     {| store := store w;
        trace := trace w ++
          [SendResponse (BAD_REQUEST K) (VStr "Some fields are missing")
             VUndefined VUndefined] |})
  \/ exists (statusCode message payload errorDetail : value),
       UserController.createBlog K B req res w
       = (Returned VUndefined,
          {| store := snd (executeQuery B "INSERT INTO blogs SET ?" row (store w));
             trace := trace w ++
               [ExecuteQuery "INSERT INTO blogs SET ?" row;
                SendResponse statusCode message payload errorDetail] |}).
Proof.
  intros row. subst row.
  unfold UserController.createBlog.
  destruct (isAvailable (set_prop (body req) "userId" (locals_user_id res))
              (blogCreationRequiredFields K) None); cbn [negb].
  - right.
    rewrite get_set_same, !get_set_other by discriminate.
    every_path; do 4 eexists; reflexivity.
  - left. reflexivity.
Qed.

Lemma set_prop_set_prop (o : obj) (key : string) (v1 v2 : value) :
  set_prop (set_prop o key v1) key v2 = set_prop o key v2.
Proof.
  induction o as [|[k old] rest IH]; simpl.
  - now rewrite String.eqb_refl.
  - destruct (k =? key) eqn:E; simpl; rewrite E; [reflexivity | now rewrite IH].
Qed.

(** X4. Whatever value the body of a create-blog request gives [userId],
    the operation does the same: the same storage call, the same response,
    the same final store. *)
Theorem createBlog_ignores_userId_of_body
    (K : Constants) (B : Backend) (req : request) (res : response) (w : world B)
    (supplied : value) :
  UserController.createBlog K B
    {| params_id := params_id req;
       body := set_prop (body req) "userId" supplied |} res w
  = UserController.createBlog K B req res w.
Proof.
  unfold UserController.createBlog. cbn [body].
  now rewrite set_prop_set_prop.
Qed.

(** X5. On every path, list-blogs and get-blog-by-id make exactly one storage
    call, a SELECT (unconditional, or with the path id as bound parameter),
    and then answer; the store is the one that SELECT left. *)
Theorem blog_reads_issue_one_select
    (K : Constants) (B : Backend) (req : request) (res : response) (w : world B) :
  (exists (statusCode message payload errorDetail : value),
     UserController.getAllBlogs K B req res w
     = (Returned VUndefined,
        {| store := snd (executeQuery B "SELECT * FROM blogs" VUndefined (store w));
           trace := trace w ++
             [ExecuteQuery "SELECT * FROM blogs" VUndefined;
              SendResponse statusCode message payload errorDetail] |}))
  /\ (exists (statusCode message payload errorDetail : value),
        UserController.getBlogById K B req res w
        = (Returned VUndefined,
           {| store := snd (executeQuery B "SELECT * FROM blogs WHERE id = ?"
                              (VArr [params_id req]) (store w));
              trace := trace w ++
                [ExecuteQuery "SELECT * FROM blogs WHERE id = ?"
                   (VArr [params_id req]);
                 SendResponse statusCode message payload errorDetail] |})).
Proof.
  split.
  - unfold UserController.getAllBlogs. every_path; do 4 eexists; reflexivity.
  - unfold UserController.getBlogById. every_path; do 4 eexists; reflexivity.
Qed.

(** X6. On every path, update-user issues no storage statement at all: it
    either answers at once (no listed field in the body) or makes the one
    user lookup and answers. *)
Theorem updateUser_issues_no_statement
    (K : Constants) (B : Backend) (req : request) (res : response) (w : world B) :
  exists (statusCode message payload errorDetail : value),
    UserController.updateUser K B req res w
    = (Returned VUndefined,
       {| store := store w;
          trace := trace w ++
            [SendResponse statusCode message payload errorDetail] |})
    \/ UserController.updateUser K B req res w
       = (Returned VUndefined,
          {| store := snd (findUserByAttribute B "id" (params_id req) (store w));
             trace := trace w ++
               [FindUserByAttribute "id" (params_id req);
                SendResponse statusCode message payload errorDetail] |}).
Proof.
  unfold UserController.updateUser.
  destruct (isAvailable (body req) (userUpdateFields K) (Some false)); cbn [negb].
  - every_path; do 4 eexists; right; reflexivity.
  - run_controller. do 4 eexists. left. reflexivity.
Qed.


(** ** Validation, absence and authorization *)

Lemma isAvailable_none_listed (targetObj : obj) (fields : list string) :
  (forall field, In field fields -> has_key targetObj field = false) ->
  isAvailable targetObj fields (Some false) = false.
Proof.
  intros Hnone. cbn [isAvailable].
  destruct (existsb (has_key targetObj) fields) eqn:E; [ | reflexivity].
  apply existsb_exists in E. destruct E as (field & Hin & Hkey).
  rewrite (Hnone field Hin) in Hkey. discriminate.
Qed.

(** X8. An update-blog request whose body holds none of the blog update
    fields is answered bad-request with
    [Fields to be updated does not exist] before anything else happens: no
    fetch, no write, and the store stays as it was.  Update-user does the
    same for a body that holds none of the user update fields, before any
    lookup. *)
Theorem update_without_listed_field_is_rejected_first
    (K : Constants) (B : Backend) :
  (forall (req : request) (res : response) (w : world B),
      (forall field, In field (possibleBlogUpdateFields K) ->
                     has_key (body req) field = false) ->
      UserController.updateBlog K B req res w
      = (Returned VUndefined,
         {| store := store w;
            trace := trace w ++
              [SendResponse (BAD_REQUEST K)
                 (VStr "Fields to be updated does not exist")
                 VUndefined VUndefined] |}))
  /\ (forall (req : request) (res : response) (w : world B),
        (forall field, In field (userUpdateFields K) ->
                       has_key (body req) field = false) ->
        UserController.updateUser K B req res w
        = (Returned VUndefined,
           {| store := store w;
              trace := trace w ++
                [SendResponse (BAD_REQUEST K)
                   (VStr "Fields to be updated does not exist")
                   VUndefined VUndefined] |})).
Proof.
  split; intros req res w Hnone.
  - unfold UserController.updateBlog.
    now rewrite (isAvailable_none_listed _ _ Hnone).
  - unfold UserController.updateUser.
    now rewrite (isAvailable_none_listed _ _ Hnone).
Qed.

Lemma update_without_listed_field_is_rejected_first_witness :
  let res := {| locals_user_id := VNum (num 7) |} in
  let w := Scripted.world_of
             [Returned (VArr [VObj [("id", VNum (num 1)); ("userId", VNum (num 7))]])]
             [Returned (VObj [("id", VNum (num 7))])] [] in
  let rejected :=
    (Returned VUndefined,
     Scripted.world_of
       [Returned (VArr [VObj [("id", VNum (num 1)); ("userId", VNum (num 7))]])]
       [Returned (VObj [("id", VNum (num 7))])]
       [SendResponse (VNum (num 400)) (VStr "Fields to be updated does not exist")
          VUndefined VUndefined]) in
  UserController.updateBlog sample_constants Scripted.backend
    {| params_id := VStr "1"; body := [("username", VStr "bob")] |} res w
  = rejected
  /\ UserController.updateUser sample_constants Scripted.backend
       {| params_id := VStr "7"; body := [("title", VStr "T")] |} res w
     = rejected.
Proof.
  intros res w rejected.
  destruct (update_without_listed_field_is_rejected_first sample_constants
              Scripted.backend) as [Hblog Huser].
  split.
  - apply (Hblog {| params_id := VStr "1"; body := [("username", VStr "bob")] |}
             res w).
    intros field [<- | [<- | []]]; reflexivity.
  - apply (Huser {| params_id := VStr "7"; body := [("title", VStr "T")] |}
             res w).
    intros field [<- | []]; reflexivity.
Defined.

(** X9. When the fetch finds no blog, update-blog (with a body that passed
    the presence check) answers [STATUS_CODES.OK] with the not-found message
    and issues no UPDATE: the fetch is its only storage call.  Delete-blog
    does the same, whatever the body, and issues no DELETE. *)
Theorem missing_blog_is_neither_updated_nor_deleted
    (K : Constants) (B : Backend) :
  (forall (req : request) (res : response) (w : world B)
          (fetched blog : value) (s : db_state B) (idText : string),
      isAvailable (body req) (possibleBlogUpdateFields K) (Some false) = true ->
      executeQuery B "SELECT * FROM blogs WHERE id = ?" (VArr [params_id req]) (store w)
      = (Returned fetched, s) ->
      element0 fetched = Returned blog ->
      truthy blog = false ->
      toString (params_id req) = Returned idText ->
      UserController.updateBlog K B req res w
      = (Returned VUndefined,
         {| store := s;
            trace := trace w ++
              [ExecuteQuery "SELECT * FROM blogs WHERE id = ?" (VArr [params_id req]);
               SendResponse (OK K)
                 (VStr ("Blog with id " ++ idText ++ " not found"))
                 VUndefined VUndefined] |}))
  /\ (forall (req : request) (res : response) (w : world B)
            (fetched blog : value) (s : db_state B) (idText : string),
        executeQuery B "SELECT * FROM blogs WHERE id = ?" (VArr [params_id req]) (store w)
        = (Returned fetched, s) ->
        element0 fetched = Returned blog ->
        truthy blog = false ->
        toString (params_id req) = Returned idText ->
        UserController.deleteBlog K B req res w
        = (Returned VUndefined,
           {| store := s;
              trace := trace w ++
                [ExecuteQuery "SELECT * FROM blogs WHERE id = ?" (VArr [params_id req]);
                 SendResponse (OK K)
                   (VStr ("Blog with id " ++ idText ++ " not found"))
                   VUndefined VUndefined] |})).
Proof.
  split.
  - intros req res w fetched blog s idText Hpresent Hfetch Hrow Hblog Hid.
    unfold UserController.updateBlog. rewrite Hpresent. run_controller.
    rewrite (run_getBlogById B _ w _ _ Hfetch), Hrow, Hblog, Hid.
    cbn [store trace negb]. now flatten_trace.
  - intros req res w fetched blog s idText Hfetch Hrow Hblog Hid.
    unfold UserController.deleteBlog. run_controller.
    rewrite (run_getBlogById B _ w _ _ Hfetch), Hrow, Hblog, Hid.
    cbn [store trace negb]. now flatten_trace.
Qed.

Lemma missing_blog_is_neither_updated_nor_deleted_witness :
  let res := {| locals_user_id := VNum (num 7) |} in
  let w := Scripted.start [Returned (VArr []);
                           Returned (VObj [("affectedRows", VNum (num 1))])] in
  let not_found :=
    (Returned VUndefined,
     Scripted.after [Returned (VObj [("affectedRows", VNum (num 1))])]
       [ExecuteQuery "SELECT * FROM blogs WHERE id = ?" (VArr [VStr "99"]);
        SendResponse (VNum (num 200)) (VStr "Blog with id 99 not found")
          VUndefined VUndefined]) in
  UserController.updateBlog sample_constants Scripted.backend
    {| params_id := VStr "99"; body := [("title", VStr "T")] |} res w
  = not_found
  /\ UserController.deleteBlog sample_constants Scripted.backend
       {| params_id := VStr "99"; body := [] |} res w
     = not_found.
Proof.
  intros res w not_found.
  destruct (missing_blog_is_neither_updated_nor_deleted sample_constants
              Scripted.backend) as [Hupdate Hdelete].
  split.
  - exact (Hupdate {| params_id := VStr "99"; body := [("title", VStr "T")] |}
             res w (VArr []) VUndefined
             ([Returned (VObj [("affectedRows", VNum (num 1))])], []) "99"
             eq_refl eq_refl eq_refl eq_refl eq_refl).
  - exact (Hdelete {| params_id := VStr "99"; body := [] |}
             res w (VArr []) VUndefined
             ([Returned (VObj [("affectedRows", VNum (num 1))])], []) "99"
             eq_refl eq_refl eq_refl eq_refl).
Defined.

(** X10. A delete-blog request for a blog that exists but whose [userId] is
    not strictly equal to the caller's identity is answered unauthorized; no
    DELETE is issued and the store is the one the fetch left. *)
Theorem deleteBlog_by_other_user_is_rejected
    (K : Constants) (B : Backend) (req : request) (res : response) (w : world B)
    (fetched blog owner : value) (s : db_state B) :
  executeQuery B "SELECT * FROM blogs WHERE id = ?" (VArr [params_id req]) (store w)
  = (Returned fetched, s) ->
  element0 fetched = Returned blog ->
  truthy blog = true ->
  member blog "userId" = Returned owner ->
  strict_equal owner (locals_user_id res) = false ->
  UserController.deleteBlog K B req res w
  = (Returned VUndefined,
     {| store := s;
        trace := trace w ++
          [ExecuteQuery "SELECT * FROM blogs WHERE id = ?" (VArr [params_id req]);
           SendResponse (UNAUTHORIZED K) (VStr "You are not authorized")
             VUndefined VUndefined] |}).
Proof.
  intros Hfetch Hrow Hblog Howner Hother.
  unfold UserController.deleteBlog. run_controller.
  rewrite (run_getBlogById B _ w _ _ Hfetch), Hrow, Hblog, Howner, Hother.
  cbn [store trace negb]. now flatten_trace.
Qed.

Lemma deleteBlog_by_other_user_is_rejected_witness :
  UserController.deleteBlog sample_constants Scripted.backend
    {| params_id := VStr "1"; body := [] |}
    {| locals_user_id := VStr "7" |}
    (Scripted.start
       [Returned (VArr [VObj [("id", VNum (num 1)); ("userId", VNum (num 7))]]);
        Returned (VObj [("affectedRows", VNum (num 1))])])
  = (Returned VUndefined,
     Scripted.after [Returned (VObj [("affectedRows", VNum (num 1))])]
       [ExecuteQuery "SELECT * FROM blogs WHERE id = ?" (VArr [VStr "1"]);
        SendResponse (VNum (num 401)) (VStr "You are not authorized")
          VUndefined VUndefined]).
Proof.
  apply (deleteBlog_by_other_user_is_rejected sample_constants Scripted.backend
           {| params_id := VStr "1"; body := [] |}
           {| locals_user_id := VStr "7" |}
           (Scripted.start
              [Returned (VArr [VObj [("id", VNum (num 1)); ("userId", VNum (num 7))]]);
               Returned (VObj [("affectedRows", VNum (num 1))])])
           (VArr [VObj [("id", VNum (num 1)); ("userId", VNum (num 7))]])
           (VObj [("id", VNum (num 1)); ("userId", VNum (num 7))])
           (VNum (num 7))
           ([Returned (VObj [("affectedRows", VNum (num 1))])], []));
    reflexivity.
Defined.

(** X11. When the checks have passed and the UPDATE returns a result that
    carries no [affectedRows] (a row list, or an object without that
    property), update-blog answers bad-request with [could not be updated],
    although the statement was issued.  Delete-blog does the same with the
    DELETE and [could not be deleted]. *)
Theorem result_without_affected_rows_is_reported_as_failure
    (K : Constants) (B : Backend) :
  (forall (req : request) (res : response) (w : world B) (s su : db_state B)
          (query idText : string) (updated : value),
      isAvailable (body req) (possibleBlogUpdateFields K) (Some false) = true ->
      caller_owns_fetched_blog B req res w s ->
      UserModel.updateBlog_query (body req) = Returned query ->
      toString (params_id req) = Returned idText ->
      executeQuery B query (VArr [params_id req]) s = (Returned updated, su) ->
      member updated "affectedRows" = Returned VUndefined ->
      UserController.updateBlog K B req res w
      = (Returned VUndefined,
         {| store := su;
            trace := trace w ++
              [ExecuteQuery "SELECT * FROM blogs WHERE id = ?" (VArr [params_id req]);
               ExecuteQuery query (VArr [params_id req]);
               SendResponse (BAD_REQUEST K)
                 (VStr ("Blog with id " ++ idText ++ " could not be updated"))
                 VUndefined VUndefined] |}))
  /\ (forall (req : request) (res : response) (w : world B) (s sd : db_state B)
            (idText : string) (deleted : value),
        caller_owns_fetched_blog B req res w s ->
        toString (params_id req) = Returned idText ->
        executeQuery B "DELETE FROM blogs WHERE id = ?" (VArr [params_id req]) s
        = (Returned deleted, sd) ->
        member deleted "affectedRows" = Returned VUndefined ->
        UserController.deleteBlog K B req res w
        = (Returned VUndefined,
           {| store := sd;
              trace := trace w ++
                [ExecuteQuery "SELECT * FROM blogs WHERE id = ?" (VArr [params_id req]);
                 ExecuteQuery "DELETE FROM blogs WHERE id = ?" (VArr [params_id req]);
                 SendResponse (BAD_REQUEST K)
                   (VStr ("Blog with id " ++ idText ++ " could not be deleted"))
                   VUndefined VUndefined] |})).
Proof.
  split.
  - intros req res w s su query idText updated Hpresent Howned Hquery Hid Hrun Hrows.
    now rewrite (updateBlog_rows_answer K B req res w s su idText Howned Hid
                   query updated _ Hpresent Hquery Hrun Hrows).
  - intros req res w s sd idText deleted Howned Hid Hrun Hrows.
    now rewrite (deleteBlog_rows_answer K B req res w s sd idText Howned Hid
                   deleted _ Hrun Hrows).
Qed.

Lemma result_without_affected_rows_is_reported_as_failure_witness :
  let res := {| locals_user_id := VNum (num 7) |} in
  let row := VObj [("id", VNum (num 1)); ("userId", VNum (num 7))] in
  let w := Scripted.start [Returned (VArr [row]); Returned (VArr [])] in
  UserController.updateBlog sample_constants Scripted.backend
    {| params_id := VStr "1"; body := [("title", VStr "T")] |} res w
  = (Returned VUndefined,
     Scripted.after []
       [ExecuteQuery "SELECT * FROM blogs WHERE id = ?" (VArr [VStr "1"]);
        ExecuteQuery "UPDATE blogs SET title = 'T' WHERE id = ?" (VArr [VStr "1"]);
        SendResponse (VNum (num 400)) (VStr "Blog with id 1 could not be updated")
          VUndefined VUndefined])
  /\ UserController.deleteBlog sample_constants Scripted.backend
       {| params_id := VStr "1"; body := [] |} res w
     = (Returned VUndefined,
        Scripted.after []
          [ExecuteQuery "SELECT * FROM blogs WHERE id = ?" (VArr [VStr "1"]);
           ExecuteQuery "DELETE FROM blogs WHERE id = ?" (VArr [VStr "1"]);
           SendResponse (VNum (num 400)) (VStr "Blog with id 1 could not be deleted")
             VUndefined VUndefined]).
Proof.
  intros res row w.
  destruct (result_without_affected_rows_is_reported_as_failure sample_constants
              Scripted.backend) as [Hupdate Hdelete].
  split.
  - refine (Hupdate {| params_id := VStr "1"; body := [("title", VStr "T")] |}
              res w ([Returned (VArr [])], []) ([], [])
              "UPDATE blogs SET title = 'T' WHERE id = ?" "1" (VArr [])
              eq_refl _ eq_refl eq_refl eq_refl eq_refl).
    exists (VArr [row]), row, (VNum (num 7)). repeat split.
  - refine (Hdelete {| params_id := VStr "1"; body := [] |}
              res w ([Returned (VArr [])], []) ([], []) "1" (VArr [])
              _ eq_refl eq_refl eq_refl).
    exists (VArr [row]), row, (VNum (num 7)). repeat split.
Defined.

(** ** Thrown errors *)

Lemma error_response_of_plain_error (K : Constants) (error : obj) :
  truthy (get error "status") = false ->
  truthy (get error "message") = false ->
  truthy (get error "response") = false ->
  error_response K error
  = SendResponse (INTERNAL_SERVER_ERROR K) (VStr "Internal Server Error")
      (VArr []) (VObj error).
Proof.
  intros Hstatus Hmessage Hresponse.
  unfold error_response, js_or. now rewrite Hstatus, Hmessage, Hresponse.
Qed.

(** X12. When the UPDATE statement itself throws, after the presence,
    existence and ownership checks have passed, and the error carries no
    truthy [status], [message] or [response], update-blog answers
    [STATUS_CODES.INTERNAL_SERVER_ERROR] with [Internal Server Error], an
    empty list as payload and the error itself as detail.  Delete-blog does
    the same when the DELETE throws. *)
Theorem plain_error_of_mutation_is_internal_server_error
    (K : Constants) (B : Backend) :
  (forall (req : request) (res : response) (w : world B) (s su : db_state B)
          (query : string) (error : obj),
      isAvailable (body req) (possibleBlogUpdateFields K) (Some false) = true ->
      caller_owns_fetched_blog B req res w s ->
      UserModel.updateBlog_query (body req) = Returned query ->
      executeQuery B query (VArr [params_id req]) s = (Thrown error, su) ->
      truthy (get error "status") = false ->
      truthy (get error "message") = false ->
      truthy (get error "response") = false ->
      UserController.updateBlog K B req res w
      = (Returned VUndefined,
         {| store := su;
            trace := trace w ++
              [ExecuteQuery "SELECT * FROM blogs WHERE id = ?" (VArr [params_id req]);
               ExecuteQuery query (VArr [params_id req]);
               SendResponse (INTERNAL_SERVER_ERROR K) (VStr "Internal Server Error")
                 (VArr []) (VObj error)] |}))
  /\ (forall (req : request) (res : response) (w : world B) (s sd : db_state B)
            (error : obj),
        caller_owns_fetched_blog B req res w s ->
        executeQuery B "DELETE FROM blogs WHERE id = ?" (VArr [params_id req]) s
        = (Thrown error, sd) ->
        truthy (get error "status") = false ->
        truthy (get error "message") = false ->
        truthy (get error "response") = false ->
        UserController.deleteBlog K B req res w
        = (Returned VUndefined,
           {| store := sd;
              trace := trace w ++
                [ExecuteQuery "SELECT * FROM blogs WHERE id = ?" (VArr [params_id req]);
                 ExecuteQuery "DELETE FROM blogs WHERE id = ?" (VArr [params_id req]);
                 SendResponse (INTERNAL_SERVER_ERROR K) (VStr "Internal Server Error")
                   (VArr []) (VObj error)] |})).
Proof.
  split.
  - intros req res w s su query error Hpresent Howned Hquery Hrun
      Hstatus Hmessage Hresponse.
    rewrite (updateBlog_thrown_answer K B req res w s su Howned
               query error Hpresent Hquery Hrun).
    now rewrite (error_response_of_plain_error K error Hstatus Hmessage Hresponse).
  - intros req res w s sd error Howned Hrun Hstatus Hmessage Hresponse.
    rewrite (deleteBlog_thrown_answer K B req res w s sd Howned error Hrun).
    now rewrite (error_response_of_plain_error K error Hstatus Hmessage Hresponse).
Qed.

Lemma plain_error_of_mutation_is_internal_server_error_witness :
  let res := {| locals_user_id := VNum (num 7) |} in
  let row := VObj [("id", VNum (num 1)); ("userId", VNum (num 7))] in
  let w := Scripted.start [Returned (VArr [row]);
                           Thrown [("code", VStr "ECONNRESET")]] in
  UserController.updateBlog sample_constants Scripted.backend
    {| params_id := VStr "1"; body := [("title", VStr "T")] |} res w
  = (Returned VUndefined,
     Scripted.after []
       [ExecuteQuery "SELECT * FROM blogs WHERE id = ?" (VArr [VStr "1"]);
        ExecuteQuery "UPDATE blogs SET title = 'T' WHERE id = ?" (VArr [VStr "1"]);
        SendResponse (VNum (num 500)) (VStr "Internal Server Error") (VArr [])
          (VObj [("code", VStr "ECONNRESET")])])
  /\ UserController.deleteBlog sample_constants Scripted.backend
       {| params_id := VStr "1"; body := [] |} res w
     = (Returned VUndefined,
        Scripted.after []
          [ExecuteQuery "SELECT * FROM blogs WHERE id = ?" (VArr [VStr "1"]);
           ExecuteQuery "DELETE FROM blogs WHERE id = ?" (VArr [VStr "1"]);
           SendResponse (VNum (num 500)) (VStr "Internal Server Error") (VArr [])
             (VObj [("code", VStr "ECONNRESET")])]).
Proof.
  intros res row w.
  destruct (plain_error_of_mutation_is_internal_server_error sample_constants
              Scripted.backend) as [Hupdate Hdelete].
  split.
  - refine (Hupdate {| params_id := VStr "1"; body := [("title", VStr "T")] |}
              res w ([Thrown [("code", VStr "ECONNRESET")]], []) ([], [])
              "UPDATE blogs SET title = 'T' WHERE id = ?"
              [("code", VStr "ECONNRESET")]
              eq_refl _ eq_refl eq_refl eq_refl eq_refl eq_refl).
    exists (VArr [row]), row, (VNum (num 7)). repeat split.
  - refine (Hdelete {| params_id := VStr "1"; body := [] |}
              res w ([Thrown [("code", VStr "ECONNRESET")]], []) ([], [])
              [("code", VStr "ECONNRESET")]
              _ eq_refl eq_refl eq_refl eq_refl).
    exists (VArr [row]), row, (VNum (num 7)). repeat split.
Defined.

(** X13. When the SELECT of list-blogs throws an error that carries a
    truthy [status], [message] and [response], the operation answers with
    that status and that message, an empty list as payload and the error's
    [response] as detail; nothing else is issued.  Get-blog-by-id does the
    same when its SELECT throws. *)
Theorem error_of_fetch_is_reported_with_its_own_status
    (K : Constants) (B : Backend) :
  (forall (req : request) (res : response) (w : world B)
          (error : obj) (s : db_state B),
      executeQuery B "SELECT * FROM blogs" VUndefined (store w) = (Thrown error, s) ->
      truthy (get error "status") = true ->
      truthy (get error "message") = true ->
      truthy (get error "response") = true ->
      UserController.getAllBlogs K B req res w
      = (Returned VUndefined,
         {| store := s;
            trace := trace w ++
              [ExecuteQuery "SELECT * FROM blogs" VUndefined;
               SendResponse (get error "status") (get error "message") (VArr [])
                 (get error "response")] |}))
  /\ (forall (req : request) (res : response) (w : world B)
            (error : obj) (s : db_state B),
        executeQuery B "SELECT * FROM blogs WHERE id = ?" (VArr [params_id req])
          (store w) = (Thrown error, s) ->
        truthy (get error "status") = true ->
        truthy (get error "message") = true ->
        truthy (get error "response") = true ->
        UserController.getBlogById K B req res w
        = (Returned VUndefined,
           {| store := s;
              trace := trace w ++
                [ExecuteQuery "SELECT * FROM blogs WHERE id = ?" (VArr [params_id req]);
                 SendResponse (get error "status") (get error "message") (VArr [])
                   (get error "response")] |})).
Proof.
  split; intros req res w error s Hrun Hstatus Hmessage Hresponse.
  - unfold UserController.getAllBlogs, UserModel.getAllBlogs. run_controller.
    rewrite (run_executeQuery B _ _ w _ _ Hrun).
    unfold js_or. rewrite Hstatus, Hmessage, Hresponse.
    cbn [store trace]. now flatten_trace.
  - unfold UserController.getBlogById, UserModel.getBlogById. run_controller.
    rewrite (run_executeQuery B _ _ w _ _ Hrun).
    unfold js_or. rewrite Hstatus, Hmessage, Hresponse.
    cbn [store trace]. now flatten_trace.
Qed.

Lemma error_of_fetch_is_reported_with_its_own_status_witness :
  let req := {| params_id := VStr "1"; body := [] |} in
  let res := {| locals_user_id := VNum (num 7) |} in
  let error := [("status", VNum (num 503)); ("message", VStr "Database unavailable");
                ("response", VStr "pool exhausted")] in
  UserController.getAllBlogs sample_constants Scripted.backend req res
    (Scripted.start [Thrown error; Returned (VArr [])])
  = (Returned VUndefined,
     Scripted.after [Returned (VArr [])]
       [ExecuteQuery "SELECT * FROM blogs" VUndefined;
        SendResponse (VNum (num 503)) (VStr "Database unavailable") (VArr [])
          (VStr "pool exhausted")])
  /\ UserController.getBlogById sample_constants Scripted.backend req res
       (Scripted.start [Thrown error])
     = (Returned VUndefined,
        Scripted.after []
          [ExecuteQuery "SELECT * FROM blogs WHERE id = ?" (VArr [VStr "1"]);
           SendResponse (VNum (num 503)) (VStr "Database unavailable") (VArr [])
             (VStr "pool exhausted")]).
Proof.
  intros req res error.
  destruct (error_of_fetch_is_reported_with_its_own_status sample_constants
              Scripted.backend) as [Hall Hone].
  split.
  - exact (Hall req res (Scripted.start [Thrown error; Returned (VArr [])])
             error ([Returned (VArr [])], [])
             eq_refl eq_refl eq_refl eq_refl).
  - exact (Hone req res (Scripted.start [Thrown error])
             error ([], []) eq_refl eq_refl eq_refl eq_refl).
Defined.

(** ** The text of the UPDATE statement *)

Lemma set_assignment_of_joined_value (key1 value1 key2 value2 : string) :
  set_assignment (key1, (value1 ++ "', " ++ key2 ++ " = '" ++ value2)%string)
  = (set_assignment (key1, value1) ++ ", " ++ set_assignment (key2, value2))%string.
Proof.
  unfold set_assignment. cbn [fst snd].
  now rewrite !append_assoc.
Qed.

(** X14. The statement text does not tell a value from further
    assignments: a single string value that contains [', key2 = 'value2]
    yields the very text that two separate fields yield. *)
Theorem updateBlog_value_can_pass_for_an_assignment
    (key1 value1 key2 value2 : string) (rest : obj) :
  UserModel.updateBlog_query
    ((key1, VStr (value1 ++ "', " ++ key2 ++ " = '" ++ value2)) :: rest)
  = UserModel.updateBlog_query
      ((key1, VStr value1) :: (key2, VStr value2) :: rest).
Proof.
  rewrite !updateBlog_query_closed_form by discriminate.
  cbn [render toString].
  destruct (render rest) as [others | error]; [ | reflexivity].
  f_equal. f_equal. f_equal.
  cbn [map]. rewrite set_assignment_of_joined_value.
  generalize (set_assignment (key1, value1)) as first.
  generalize (set_assignment (key2, value2)) as second.
  generalize (map set_assignment others) as texts.
  intros texts second first.
  rewrite (concat_cons_cons ", " first second texts).
  destruct texts as [|third texts].
  - reflexivity.
  - rewrite !concat_cons_cons. now rewrite !append_assoc.
Qed.

(** ** User records *)

(** X16. When the lookup finds a user whose [id] is not strictly equal to
    the caller's identity, get-user-by-id answers unauthorized with neither
    payload nor error detail, whatever the body; the lookup is the only call
    made.  Update-user, with a body that passed its presence check, does the
    same. *)
Theorem other_users_record_is_refused (K : Constants) (B : Backend) :
  (forall (req : request) (res : response) (w : world B)
          (user id : value) (s : db_state B),
      findUserByAttribute B "id" (params_id req) (store w) = (Returned user, s) ->
      truthy user = true ->
      member user "id" = Returned id ->
      strict_equal id (locals_user_id res) = false ->
      UserController.getUserById K B req res w
      = (Returned VUndefined,
         {| store := s;
            trace := trace w ++
              [FindUserByAttribute "id" (params_id req);
               SendResponse (UNAUTHORIZED K) (VStr "You are not authorized")
                 VUndefined VUndefined] |}))
  /\ (forall (req : request) (res : response) (w : world B)
            (user id : value) (s : db_state B),
        isAvailable (body req) (userUpdateFields K) (Some false) = true ->
        findUserByAttribute B "id" (params_id req) (store w) = (Returned user, s) ->
        truthy user = true ->
        member user "id" = Returned id ->
        strict_equal id (locals_user_id res) = false ->
        UserController.updateUser K B req res w
        = (Returned VUndefined,
           {| store := s;
              trace := trace w ++
                [FindUserByAttribute "id" (params_id req);
                 SendResponse (UNAUTHORIZED K) (VStr "You are not authorized")
                   VUndefined VUndefined] |})).
Proof.
  split.
  - intros req res w user id s Hfind Huser Hid Hother.
    unfold UserController.getUserById. run_controller.
    rewrite (run_findUserByAttribute B _ _ w _ _ Hfind), Huser, Hid, Hother.
    cbn [store trace negb]. now flatten_trace.
  - intros req res w user id s Hpresent Hfind Huser Hid Hother.
    unfold UserController.updateUser. rewrite Hpresent. run_controller.
    rewrite (run_findUserByAttribute B _ _ w _ _ Hfind), Huser, Hid, Hother.
    cbn [store trace negb]. now flatten_trace.
Qed.

Lemma other_users_record_is_refused_witness :
  let res := {| locals_user_id := VNum (num 7) |} in
  let carol := VObj [("id", VNum (num 9)); ("username", VStr "carol");
                     ("password", VStr "hash")] in
  let w := Scripted.world_of [] [Returned carol] [] in
  let refused :=
    (Returned VUndefined,
     Scripted.world_of [] []
       [FindUserByAttribute "id" (VStr "9");
        SendResponse (VNum (num 401)) (VStr "You are not authorized")
          VUndefined VUndefined]) in
  UserController.getUserById sample_constants Scripted.backend
    {| params_id := VStr "9"; body := [] |} res w
  = refused
  /\ UserController.updateUser sample_constants Scripted.backend
       {| params_id := VStr "9"; body := [("username", VStr "bob")] |} res w
     = refused.
Proof.
  intros res carol w refused.
  destruct (other_users_record_is_refused sample_constants Scripted.backend)
    as [Hget Hupdate].
  split.
  - exact (Hget {| params_id := VStr "9"; body := [] |} res w
             carol (VNum (num 9)) ([], [])
             eq_refl eq_refl eq_refl eq_refl).
  - exact (Hupdate {| params_id := VStr "9"; body := [("username", VStr "bob")] |}
             res w carol (VNum (num 9)) ([], [])
             eq_refl eq_refl eq_refl eq_refl eq_refl).
Defined.

(** X17. When the lookup finds no user, update-user (with a body that passed
    the presence check) answers [STATUS_CODES.OK] with the does-not-exist
    message and neither payload nor error detail, after the lookup alone.
    The message carries the string rendering of the path id; were the id a
    value without one, the [catch] block would answer instead. *)
Theorem updateUser_of_missing_user_is_reported_with_ok
    (K : Constants) (B : Backend) (req : request) (res : response) (w : world B)
    (user : value) (s : db_state B) :
  isAvailable (body req) (userUpdateFields K) (Some false) = true ->
  findUserByAttribute B "id" (params_id req) (store w) = (Returned user, s) ->
  truthy user = false ->
  UserController.updateUser K B req res w
  = (Returned VUndefined,
     {| store := s;
        trace := trace w ++
          [FindUserByAttribute "id" (params_id req);
           match toString (params_id req) with
           | Returned idText =>
               SendResponse (OK K)
                 (VStr ("User with id " ++ idText ++ " does not exist"))
                 VUndefined VUndefined
           | Thrown error => error_response K error
           end] |}).
Proof.
  intros Hpresent Hfind Huser.
  unfold UserController.updateUser. rewrite Hpresent. run_controller.
  rewrite (run_findUserByAttribute B _ _ w _ _ Hfind), Huser.
  cbn [store trace negb].
  destruct (toString (params_id req)); cbn [store trace]; now flatten_trace.
Qed.

Lemma updateUser_of_missing_user_is_reported_with_ok_witness :
  UserController.updateUser sample_constants Scripted.backend
    {| params_id := VStr "9"; body := [("username", VStr "bob")] |}
    {| locals_user_id := VNum (num 9) |}
    (Scripted.world_of [] [Returned VNull] [])
  = (Returned VUndefined,
     Scripted.world_of [] []
       [FindUserByAttribute "id" (VStr "9");
        SendResponse (VNum (num 200)) (VStr "User with id 9 does not exist")
          VUndefined VUndefined]).
Proof.
  apply (updateUser_of_missing_user_is_reported_with_ok sample_constants
           Scripted.backend
           {| params_id := VStr "9"; body := [("username", VStr "bob")] |}
           {| locals_user_id := VNum (num 9) |}
           (Scripted.world_of [] [Returned VNull] [])
           VNull ([], []));
    reflexivity.
Defined.
